(** * EDULINE adaptive quiz: the session engine of [try.py]

    A shallow embedding of the quiz state machine of the Streamlit
    application: [reset_quiz_state], [load_next_question],
    [submit_answer], the "Next Question" and "Retry Weak Areas" button
    handlers and the quiz-state part of [finish_and_record].

    Conventions of the embedding.
    - Python [int] is [Z]; pandas index labels produced by
      [reset_index(drop=True)] are [nat].
    - Python [str] is [string].  Equality and concatenation are those
      of Python for every string.  [strip] and [upper] are Python's on
      strings of ASCII characters ([PyStr.is_ascii]) and are not meant
      beyond: a statement that depends on what they return for a stored
      answer key assumes that key to be ASCII.  The keys offered by the
      radio of the quiz page are the ASCII letters A to D.
    - A [dict] is an association list in insertion order, as Python
      keeps it; [dict_set] overwrites in place or appends.
    - The global [quiz] dictionary is a record threaded through every
      operation.  [last_tick] (a wall-clock reading) and the constant
      [cluster_name_map] are left out, as is the data base.
    - [random.choice] and [DataFrame.sample] take the drawn position as
      an explicit argument, reduced modulo the size of what is drawn
      from: every draw of the source is obtained for some argument. *)

From Stdlib Require Import ZArith List String Ascii Bool Arith Lia.
From Stdlib Require Import DecimalString DecimalZ.
Import ListNotations.

Open Scope string_scope.
Open Scope Z_scope.

(** ** Python strings *)

Module PyStr.

(** Whether every character of a string is an ASCII character (code
    below 128): the strings on which [strip] and [upper] below are the
    methods of Python. *)
Fixpoint is_ascii (s : string) : bool :=
  match s with
  | EmptyString => true
  | String c t => (nat_of_ascii c <? 128)%nat && is_ascii t
  end.

(** [str.isspace] on one ASCII character: TAB..CR, FS..US and SPACE. *)
Definition isspace (c : ascii) : bool :=
  let n := nat_of_ascii c in
  ((9 <=? n)%nat && (n <=? 13)%nat) || ((28 <=? n)%nat && (n <=? 32)%nat).

Fixpoint lstrip (s : string) : string :=
  match s with
  | EmptyString => EmptyString
  | String c t => if isspace c then lstrip t else s
  end.

Fixpoint rstrip (s : string) : string :=
  match s with
  | EmptyString => EmptyString
  | String c t =>
      match rstrip t with
      | EmptyString => if isspace c then EmptyString else String c EmptyString
      | t' => String c t'
      end
  end.

(** [s.strip()] for [s] an ASCII string: the whitespace of Python
    outside ASCII (U+0085, U+00A0, ...) is not looked for. *)
Definition strip (s : string) : string := rstrip (lstrip s).

Definition upper_char (c : ascii) : ascii :=
  let n := nat_of_ascii c in
  if ((97 <=? n)%nat && (n <=? 122)%nat)%bool then ascii_of_nat (n - 32) else c.

(** [s.upper()] for [s] an ASCII string: the letters a to z are
    raised, every other character is kept. *)
Fixpoint upper (s : string) : string :=
  match s with
  | EmptyString => EmptyString
  | String c t => String (upper_char c) (upper t)
  end.

End PyStr.

(** ** Python dictionaries, in insertion order *)

Section Dict.
Context {K V : Type} (eqb : K -> K -> bool).

(** [d.get(k)] *)
Fixpoint dict_get (d : list (K * V)) (k : K) : option V :=
  match d with
  | [] => None
  | (k', v) :: t => if eqb k' k then Some v else dict_get t k
  end.

(** [d.get(k, dflt)] *)
Definition dict_get_default (d : list (K * V)) (k : K) (dflt : V) : V :=
  match dict_get d k with
  | Some v => v
  | None => dflt
  end.

(** [d[k] = v] *)
Fixpoint dict_set (d : list (K * V)) (k : K) (v : V) : list (K * V) :=
  match d with
  | [] => [(k, v)]
  | (k', v') :: t =>
      if eqb k' k then (k', v) :: t else (k', v') :: dict_set t k v
  end.

(** [d.keys()] *)
Definition dict_keys (d : list (K * V)) : list K := map fst d.
End Dict.

(** ** Config *)

Definition DEFAULT_TOTAL_Q : Z := 5.
Definition CLUSTER_LIMITS : list (string * Z) :=
  [("English", 7); ("Mathematics", 8)].
Definition MIN_CLUSTER : Z := 1.

(** ** The question table *)

(** One line of [questions_clus8.csv], [Cluster] already cast to [int]. *)
Record Question : Type := mkQuestion {
  Subject : string;
  Cluster : Z;
  QuestionText : string;
  Option_A : string;
  Option_B : string;
  Option_C : string;
  Option_D : string;
  Correct_Answer : string
}.

(** A row of a data frame: its index label ([q.name]) and its columns. *)
Definition Row : Type := (nat * Question)%type.
Definition DataFrame : Type := list Row.

Definition row_name (r : Row) : nat := fst r.
Definition row_cluster (r : Row) : Z := Cluster (snd r).

(** [.reset_index(drop=True)]: labels 0, 1, 2, ... in order. *)
Definition reset_index (rows : list Question) : DataFrame :=
  combine (seq 0 (List.length rows)) rows.

(** [df_all[df_all["Subject"] == subject].reset_index(drop=True)] *)
Definition subject_frame (df_all : list Question) (subject : string) : DataFrame :=
  reset_index (filter (fun q => Subject q =? subject)%string df_all).

(** [df[df["Cluster"] == c]] *)
Definition cluster_eq (c : Z) (df : DataFrame) : DataFrame :=
  filter (fun r => row_cluster r =? c) df.

(** [c in l] on a list of integers *)
Definition Zmem (c : Z) (l : list Z) : bool := existsb (Z.eqb c) l.

(** [df[df["Cluster"].isin(l)]] *)
Definition cluster_isin (l : list Z) (df : DataFrame) : DataFrame :=
  filter (fun r => Zmem (row_cluster r) l) df.

(** [df.drop(labels, errors="ignore")] *)
Definition drop (labels : list nat) (df : DataFrame) : DataFrame :=
  filter (fun r => negb (existsb (Nat.eqb (row_name r)) labels)) df.

(** [random.choice(l)] on a non-empty list, [r] being the draw. *)
Definition random_choice (r : nat) (l : list Z) : Z :=
  nth (r mod List.length l) l 0.

(** [df.sample(1).iloc[0]] on a non-empty frame, [r] being the draw. *)
Definition sample (r : nat) (df : DataFrame) : option Row :=
  nth_error df (r mod List.length df).

(** ** The quiz state *)

Record Quiz : Type := mkQuiz {
  started : bool;
  subject : string;
  cluster : Z;
  question_index : Z;
  total_questions : Z;
  score : Z;
  used_indices : list nat;
  current_question : option Row;
  submitted : bool;
  feedback : string;
  weak_clusters : list (Z * Z);
  mode : string;
  weak_only_list : list Z;
  time_left : Z;
  enable_timer : bool
}.

(** What a call leaves behind: the updated state, or a Python exception
    raised before any assignment. *)
Inductive PyError : Type := TypeError.

Inductive Outcome : Type :=
| Done (quiz : Quiz)
| Raised (e : PyError).

(** ** Helpers of the source *)

(** [CLUSTER_LIMITS.get(subject, 6) // 2] *)
Definition mid (subj : string) : Z :=
  dict_get_default String.eqb CLUSTER_LIMITS subj 6 / 2.

(** [weak_only_list or []] *)
Definition or_empty (weak_only_list : option (list Z)) : list Z :=
  match weak_only_list with
  | Some l => l
  | None => []
  end.

(** [{c: 0 for c in l}] *)
Definition zero_tally (l : list Z) : list (Z * Z) :=
  fold_left (fun d c => dict_set Z.eqb d c 0) l [].

Definition reset_quiz_state (subj : string) (total_q : Z) (mode_ : string)
    (weak_only_list_ : option (list Z)) (enable_timer_ : bool) : Quiz :=
  let start_cluster :=
    if (mode_ =? "normal")%string then mid subj
    else match or_empty weak_only_list_ with
         | c :: _ => c
         | [] => mid subj
         end in
  let total_time := total_q * 15 in
  {| started := true;
     subject := subj;
     cluster := start_cluster;
     question_index := 0;
     total_questions := total_q;
     score := 0;
     used_indices := [];
     current_question := None;
     submitted := false;
     feedback := "";
     weak_clusters :=
       if (mode_ =? "normal")%string then []
       else zero_tally (or_empty weak_only_list_);
     mode := mode_;
     weak_only_list := or_empty weak_only_list_;
     time_left := if enable_timer_ then total_time else 0;
     enable_timer := enable_timer_ |}.

(** [quiz["mode"] == "weak_only" and quiz["weak_only_list"]] *)
Definition weak_mode (quiz : Quiz) : bool :=
  (mode quiz =? "weak_only")%string &&
  match weak_only_list quiz with [] => false | _ :: _ => true end.

(** [quiz["cluster"] = c] *)
Definition set_cluster (c : Z) (quiz : Quiz) : Quiz :=
  {| started := started quiz; subject := subject quiz; cluster := c;
     question_index := question_index quiz;
     total_questions := total_questions quiz; score := score quiz;
     used_indices := used_indices quiz;
     current_question := current_question quiz;
     submitted := submitted quiz; feedback := feedback quiz;
     weak_clusters := weak_clusters quiz; mode := mode quiz;
     weak_only_list := weak_only_list quiz; time_left := time_left quiz;
     enable_timer := enable_timer quiz |}.

(** The four assignments that end [load_next_question]. *)
Definition set_loaded (q : Row) (quiz : Quiz) : Quiz :=
  {| started := started quiz; subject := subject quiz; cluster := cluster quiz;
     question_index := question_index quiz;
     total_questions := total_questions quiz; score := score quiz;
     used_indices := used_indices quiz ++ [row_name q];
     current_question := Some q;
     submitted := false; feedback := "";
     weak_clusters := weak_clusters quiz; mode := mode quiz;
     weak_only_list := weak_only_list quiz; time_left := time_left quiz;
     enable_timer := enable_timer quiz |}.

(** The target cluster of a selection and the state after the re-draw of
    the first [if] of [load_next_question]. *)
Definition retarget (r_choice : nat) (quiz : Quiz) : Z * Quiz :=
  if weak_mode quiz then
    if negb (Zmem (cluster quiz) (weak_only_list quiz)) then
      let target_cluster := random_choice r_choice (weak_only_list quiz) in
      (target_cluster, set_cluster target_cluster quiz)
    else (cluster quiz, quiz)
  else (cluster quiz, quiz).

(** The frame [subset] that is sampled: the unused questions of the
    target cluster, or the widened frame when there are none. *)
Definition pool (df_subj : DataFrame) (target_cluster : Z) (quiz : Quiz)
    : DataFrame :=
  match drop (used_indices quiz) (cluster_eq target_cluster df_subj) with
  | [] =>
      if weak_mode quiz
      then drop (used_indices quiz) (cluster_isin (weak_only_list quiz) df_subj)
      else drop (used_indices quiz) df_subj
  | subset => subset
  end.

(** [load_next_question()]: the returned boolean and the state. *)
Definition load_next_question (df_all : list Question)
    (r_choice r_sample : nat) (quiz : Quiz) : bool * Quiz :=
  let df_subj := subject_frame df_all (subject quiz) in
  let '(target_cluster, quiz1) := retarget r_choice quiz in
  let subset := pool df_subj target_cluster quiz1 in
  match sample r_sample subset with
  | None => (false, quiz1)
  | Some q => (true, set_loaded q quiz1)
  end.

(** The state after a matching answer. *)
Definition set_correct (quiz : Quiz) : Quiz :=
  {| started := started quiz; subject := subject quiz;
     cluster :=
       if (mode quiz =? "normal")%string
       then Z.min (dict_get_default String.eqb CLUSTER_LIMITS (subject quiz)
                     (cluster quiz + 1))
                  (cluster quiz + 1)
       else cluster quiz;
     question_index := question_index quiz;
     total_questions := total_questions quiz;
     score := score quiz + 1;
     used_indices := used_indices quiz;
     current_question := current_question quiz;
     submitted := true;
     feedback := "✅ Correct! Great job.";
     weak_clusters := weak_clusters quiz; mode := mode quiz;
     weak_only_list := weak_only_list quiz; time_left := time_left quiz;
     enable_timer := enable_timer quiz |}.

(** The state after a non-matching answer, [correct] being the
    normalised key of the question. *)
Definition set_wrong (correct : string) (quiz : Quiz) : Quiz :=
  let cluster_at_time := cluster quiz in
  {| started := started quiz; subject := subject quiz;
     cluster :=
       if (mode quiz =? "normal")%string
       then Z.max MIN_CLUSTER (cluster quiz - 1)
       else cluster quiz;
     question_index := question_index quiz;
     total_questions := total_questions quiz;
     score := score quiz;
     used_indices := used_indices quiz;
     current_question := current_question quiz;
     submitted := true;
     feedback := "❌ Wrong! Correct answer: " ++ correct;
     weak_clusters :=
       dict_set Z.eqb (weak_clusters quiz) cluster_at_time
         (dict_get_default Z.eqb (weak_clusters quiz) cluster_at_time 0 + 1);
     mode := mode quiz;
     weak_only_list := weak_only_list quiz; time_left := time_left quiz;
     enable_timer := enable_timer quiz |}.

(** [str(q["Correct Answer"]).strip().upper()] *)
Definition correct_key (q : Row) : string :=
  PyStr.upper (PyStr.strip (Correct_Answer (snd q))).

(** [submit_answer(choice_key)].  With no question loaded the subscript
    [q["Correct Answer"]] on [None] raises before anything is written. *)
Definition submit_answer (choice_key : string) (quiz : Quiz) : Outcome :=
  match current_question quiz with
  | None => Raised TypeError
  | Some q =>
      let correct := correct_key q in
      if (choice_key =? correct)%string
      then Done (set_correct quiz)
      else Done (set_wrong correct quiz)
  end.

(** The quiz-state part of [finish_and_record()]. *)
Definition finish_and_record (quiz : Quiz) : Quiz :=
  {| started := false; subject := subject quiz; cluster := cluster quiz;
     question_index := question_index quiz;
     total_questions := total_questions quiz; score := score quiz;
     used_indices := used_indices quiz;
     current_question := current_question quiz;
     submitted := submitted quiz; feedback := feedback quiz;
     weak_clusters := weak_clusters quiz; mode := mode quiz;
     weak_only_list := weak_only_list quiz; time_left := time_left quiz;
     enable_timer := enable_timer quiz |}.

(** The "Next Question" button. *)
Definition next_question (quiz : Quiz) : Quiz :=
  let quiz1 :=
    {| started := started quiz; subject := subject quiz;
       cluster := cluster quiz;
       question_index := question_index quiz + 1;
       total_questions := total_questions quiz; score := score quiz;
       used_indices := used_indices quiz;
       current_question := None;
       submitted := false; feedback := "";
       weak_clusters := weak_clusters quiz; mode := mode quiz;
       weak_only_list := weak_only_list quiz; time_left := time_left quiz;
       enable_timer := enable_timer quiz |} in
  if total_questions quiz1 <=? question_index quiz1
  then finish_and_record quiz1
  else quiz1.

(** [[c for c, m in quiz["weak_clusters"].items() if m > 0]] *)
Definition weak_list_of (quiz : Quiz) : list Z :=
  map fst (filter (fun cm => 0 <? snd cm) (weak_clusters quiz)).

(** The "Retry Weak Areas (if any)" button of the subject page: the
    application stage and the quiz state it leaves, together with the
    notice shown when nothing is started. *)
Definition retry_weak_areas_subject_page (subj : string) (total_q : Z)
    (enable_timer_ : bool) (stage : string) (quiz : Quiz)
    : string * Quiz * option string :=
  let weak_list := weak_list_of quiz in
  match weak_list with
  | [] =>
      (stage, quiz,
       Some "No recorded weak areas yet. Try a normal quiz first.")
  | _ :: _ =>
      ("quiz",
       reset_quiz_state subj total_q "weak_only" (Some weak_list) enable_timer_,
       None)
  end.

(** The "Retry Weak Areas" button of the finished page; the timer
    argument is left to its default. *)
Definition retry_weak_areas_finished_page (stage : string) (quiz : Quiz)
    : string * Quiz * option string :=
  let weak_list := weak_list_of quiz in
  match weak_list with
  | [] => (stage, quiz, Some "No weak areas recorded. Try a quiz first.")
  | _ :: _ =>
      ("quiz",
       reset_quiz_state (subject quiz) (total_questions quiz) "weak_only"
         (Some weak_list) true,
       None)
  end.

(** The "Start Adaptive Quiz" button of the subject page. *)
Definition start_adaptive_quiz (subj : string) (total_q : Z)
    (enable_timer_ : bool) : string * Quiz :=
  ("quiz", reset_quiz_state subj total_q "normal" None enable_timer_).

(** ** Sessions: sequences of operations *)

(** What the quiz page can do to the state between two renderings:
    load a question (with the two draws), submit a key, press "Next
    Question", or finish (quit, time expiry, no question left). *)
Inductive Op : Type :=
| OpLoad (r_choice r_sample : nat)
| OpSubmit (choice_key : string)
| OpNext
| OpFinish.

(** A call that raises leaves the state as it was. *)
Definition apply_op (df_all : list Question) (quiz : Quiz) (op : Op) : Quiz :=
  match op with
  | OpLoad r_choice r_sample =>
      snd (load_next_question df_all r_choice r_sample quiz)
  | OpSubmit choice_key =>
      match submit_answer choice_key quiz with
      | Done quiz' => quiz'
      | Raised _ => quiz
      end
  | OpNext => next_question quiz
  | OpFinish => finish_and_record quiz
  end.

Definition run (df_all : list Question) (ops : list Op) (quiz : Quiz) : Quiz :=
  fold_left (apply_op df_all) ops quiz.

(** The states a session goes through, the first one included. *)
Fixpoint trace (df_all : list Question) (ops : list Op) (quiz : Quiz)
    : list Quiz :=
  quiz ::
  match ops with
  | [] => []
  | op :: ops' => trace df_all ops' (apply_op df_all quiz op)
  end.

(** The identifiers picked by the successful selections of a session, in
    order. *)
Fixpoint selected (df_all : list Question) (ops : list Op) (quiz : Quiz)
    : list nat :=
  match ops with
  | [] => []
  | op :: ops' =>
      let rest := selected df_all ops' (apply_op df_all quiz op) in
      match op with
      | OpLoad r_choice r_sample =>
          match load_next_question df_all r_choice r_sample quiz with
          | (true, quiz') =>
              match current_question quiz' with
              | Some q => row_name q :: rest
              | None => rest
              end
          | (false, _) => rest
          end
      | _ => rest
      end
  end.

(** Whether every submission of a session is judged the same way
    ([verdict = true]: all match; [false]: none does), each one taken
    on the state it is made in. *)
Fixpoint all_judged (verdict : bool) (df_all : list Question)
    (ops : list Op) (quiz : Quiz) : bool :=
  match ops with
  | [] => true
  | op :: ops' =>
      match op with
      | OpSubmit choice_key =>
          match current_question quiz with
          | Some q => Bool.eqb (choice_key =? correct_key q)%string verdict
          | None => true
          end
      | _ => true
      end && all_judged verdict df_all ops' (apply_op df_all quiz op)
  end.

(** ** A small question table for the examples *)

Definition demo_bank : list Question :=
  [ mkQuestion "Mathematics" 2 "7 x 8 = ?" "54" "56" "58" "64" " b ";
    mkQuestion "English" 3 "Pick the noun." "run" "blue" "table" "slowly" "C";
    mkQuestion "English" 5 "Opposite of hot?" "cold" "warm" "dry" "tall" "a";
    mkQuestion "Mathematics" 5 "10 / 4 = ?" "2" "2.5" "3" "4" "B" ].

(** A session that has just loaded the only English question of
    cluster 3. *)
Definition demo_english : Quiz :=
  snd (load_next_question demo_bank 0 0
         (reset_quiz_state "English" 5 "normal" None true)).

(** A session in Mathematics: no question of the start cluster 4
    exists, so the first selection comes from the widened frame. *)
Definition demo_maths : Quiz :=
  snd (load_next_question demo_bank 0 0
         (reset_quiz_state "Mathematics" 3 "normal" None true)).

(** ** Notions used in the statements *)

(** The normal form the stored key is brought to. *)
Definition normalise (s : string) : string := PyStr.upper (PyStr.strip s).

(** The number of misses recorded for a cluster,
    [weak_clusters.get(c, 0)]. *)
Definition tally (quiz : Quiz) (c : Z) : Z :=
  dict_get_default Z.eqb (weak_clusters quiz) c 0.

(** The midpoint of an inclusive integer range, rounded down when it
    falls between two integers: the reading of "midpoint of the
    subject's range" under which the range 1..8 has midpoint 4. *)
Definition range_midpoint (lo hi : Z) : Z := (lo + hi) / 2.

(** Whether a list of integers never goes down (resp. never goes up)
    from one element to the next. *)
Fixpoint non_decreasing (l : list Z) : Prop :=
  match l with
  | a :: (b :: _) as t => a <= b /\ non_decreasing t
  | _ => True
  end.

Fixpoint non_increasing (l : list Z) : Prop :=
  match l with
  | a :: (b :: _) as t => b <= a /\ non_increasing t
  | _ => True
  end.

(** What holds of a weak_only session with candidate list [wl]: the
    mode and the list are fixed, the current cluster is a candidate and
    so is every key of the tally. *)
Definition weak_only_invariant (wl : list Z) (quiz : Quiz) : Prop :=
  mode quiz = "weak_only" /\
  weak_only_list quiz = wl /\
  In (cluster quiz) wl /\
  (forall k, In k (dict_keys (weak_clusters quiz)) -> In k wl).

(** A session that has used up both English questions of [demo_bank]. *)
Definition demo_exhausted : Quiz :=
  run demo_bank [OpLoad 0 0; OpNext; OpLoad 0 0; OpNext]
    (reset_quiz_state "English" 5 "normal" None true).

(** ** Topic names and the summary of a round *)

(** The cluster to topic mapping. *)
Definition cluster_topics : list (Z * list (string * string)) :=
  [ (0, [("English", "Verb Tenses, Sentence Completion");
         ("Mathematics", "Basic Arithmetic, Word Problems")]);
    (1, [("English", "Spelling, Vocabulary");
         ("Mathematics", "Number Properties")]);
    (2, [("English", "Grammar (Sentence Structure)");
         ("Mathematics", "Equations, Expressions")]);
    (3, [("English", "Parts of Speech (Adjectives, Nouns)");
         ("Mathematics", "Geometry Basics")]);
    (4, [("English", "Synonyms, Antonyms, Vocabulary");
         ("Mathematics", "Basic Operations")]);
    (5, [("English", "Passive Voice, Opposites");
         ("Mathematics", "Simple Calculations")]);
    (6, [("English", "Prepositions, Conjunctions");
         ("Mathematics", "Fractions, Decimals")]);
    (7, [("English", "Minor Grammar");
         ("Mathematics", "Ratios, Word Problems")]);
    (8, [("Mathematics", "Algebra, Fractions, Equations")]) ].

(** [str(n)] of an integer: its decimal digits, after a minus sign when
    it is negative. *)
Definition str_int (n : Z) : string := NilEmpty.string_of_int (Z.to_int n).

(** [cluster_topics.get(cl, {}).get(subject, f"Topic {cl}")] *)
Definition topic_name (cl : Z) (subj : string) : string :=
  dict_get_default String.eqb
    (dict_get_default Z.eqb cluster_topics cl [])
    subj ("Topic " ++ str_int cl).

(** The dictionary [mapped_weak] that [finish_and_record] hands to the
    data base: one assignment per item of the tally, in order. *)
Definition mapped_weak (quiz : Quiz) : list (string * Z) :=
  fold_left
    (fun mapped cl_misses =>
       dict_set String.eqb mapped
         (topic_name (fst cl_misses) (subject quiz)) (snd cl_misses))
    (weak_clusters quiz) [].

(** ** The quiz page *)

(** The keys offered by the radio of the quiz page. *)
Inductive RadioKey : Type := KeyA | KeyB | KeyC | KeyD.

Definition radio_key (k : RadioKey) : string :=
  match k with
  | KeyA => "A"
  | KeyB => "B"
  | KeyC => "C"
  | KeyD => "D"
  end.

(** The button pressed in a run of the quiz page, if any. *)
Inductive Click : Type :=
| NoClick
| ClickSubmit (choice : RadioKey)
| ClickQuit
| ClickRestart
| ClickNext.

(** How a run of the quiz page ends: with the application stage and the
    quiz state it leaves, or with an exception out of [submit_answer]. *)
Inductive PageResult : Type :=
| Page (stage : string) (quiz : Quiz)
| PageRaised (e : PyError) (quiz : Quiz).

(** [quiz["time_left"] = t] *)
Definition set_time_left (t : Z) (quiz : Quiz) : Quiz :=
  {| started := started quiz; subject := subject quiz; cluster := cluster quiz;
     question_index := question_index quiz;
     total_questions := total_questions quiz; score := score quiz;
     used_indices := used_indices quiz;
     current_question := current_question quiz;
     submitted := submitted quiz; feedback := feedback quiz;
     weak_clusters := weak_clusters quiz; mode := mode quiz;
     weak_only_list := weak_only_list quiz; time_left := t;
     enable_timer := enable_timer quiz |}.

(** [quiz["started"] = b] *)
Definition set_started (b : bool) (quiz : Quiz) : Quiz :=
  {| started := b; subject := subject quiz; cluster := cluster quiz;
     question_index := question_index quiz;
     total_questions := total_questions quiz; score := score quiz;
     used_indices := used_indices quiz;
     current_question := current_question quiz;
     submitted := submitted quiz; feedback := feedback quiz;
     weak_clusters := weak_clusters quiz; mode := mode quiz;
     weak_only_list := weak_only_list quiz; time_left := time_left quiz;
     enable_timer := enable_timer quiz |}.

(** The countdown of the quiz page.  [elapsed] is [int(elapsed)], the
    whole seconds since the last tick: the test [elapsed >= 1] of the
    source holds exactly when that integer is at least 1. *)
Definition timer_tick (elapsed : Z) (quiz : Quiz) : Quiz :=
  if enable_timer quiz then
    if 1 <=? elapsed then set_time_left (time_left quiz - elapsed) quiz
    else quiz
  else quiz.

(** One run of the script in stage [quiz], up to its end or to the
    first [st.rerun()].  [renders] tells whether the display between
    the countdown and the buttons (progress bar, question, radio)
    completes on a state; it writes nothing.  A button is read only
    where the script reaches it: "Next Question" only under
    [quiz["submitted"]]. *)
Definition quiz_page (renders : Quiz -> bool) (df_all : list Question)
    (elapsed : Z) (r_choice r_sample : nat) (click : Click) (quiz : Quiz)
    : PageResult :=
  if negb (started quiz) then Page "subject" quiz
  else
    let '(ok, quiz1) :=
      match current_question quiz with
      | None => load_next_question df_all r_choice r_sample quiz
      | Some _ => (true, quiz)
      end in
    if negb ok then Page "finished" (finish_and_record quiz1)
    else
      let quiz2 := timer_tick elapsed quiz1 in
      if enable_timer quiz2 && (time_left quiz2 <=? 0)
      then Page "finished" (finish_and_record quiz2)
      else if negb (renders quiz2) then Page "quiz" quiz2
      else
        match click with
        | NoClick => Page "quiz" quiz2
        | ClickSubmit choice =>
            match submit_answer (radio_key choice) quiz2 with
            | Done quiz3 => Page "quiz" quiz3
            | Raised e => PageRaised e quiz2
            end
        | ClickQuit => Page "finished" (finish_and_record quiz2)
        | ClickRestart => Page "subject" (set_started false quiz2)
        | ClickNext =>
            if submitted quiz2 then
              Page (if total_questions quiz2 <=? question_index quiz2 + 1
                    then "finished" else "quiz")
                   (next_question quiz2)
            else Page "quiz" quiz2
        end.

(** ** The pages together *)

(** What can happen between two states of the application once the
    student is registered: a button of the subject page (with the
    values of its widgets), a run of the quiz page, a button of the
    finished page. *)
Inductive Event : Type :=
| EvStart (subj : string) (total_q : Z) (timer : bool)
| EvRetry (subj : string) (total_q : Z) (timer : bool)
| EvQuiz (elapsed : Z) (r_choice r_sample : nat) (click : Click)
| EvRetryFinished
| EvChooseAnother.

(** The stage and the quiz state after an event; a button that is not
    on the current page does nothing. *)
Definition app_step (renders : Quiz -> bool) (df_all : list Question)
    (st : string * Quiz) (ev : Event) : string * Quiz :=
  let '(stage, quiz) := st in
  if (stage =? "subject")%string then
    match ev with
    | EvStart subj total_q timer => start_adaptive_quiz subj total_q timer
    | EvRetry subj total_q timer =>
        fst (retry_weak_areas_subject_page subj total_q timer stage quiz)
    | _ => st
    end
  else if (stage =? "quiz")%string then
    match ev with
    | EvQuiz elapsed r_choice r_sample click =>
        match quiz_page renders df_all elapsed r_choice r_sample click quiz with
        | Page stage' quiz' => (stage', quiz')
        | PageRaised _ quiz' => (stage, quiz')
        end
    | _ => st
    end
  else if (stage =? "finished")%string then
    match ev with
    | EvRetryFinished => fst (retry_weak_areas_finished_page stage quiz)
    | EvChooseAnother => ("subject", quiz)
    | _ => st
    end
  else st.

Definition app_run (renders : Quiz -> bool) (df_all : list Question)
    (events : list Event) (st : string * Quiz) : string * Quiz :=
  fold_left (app_step renders df_all) events st.

(** The slider of the subject page offers 3 to 20 questions. *)
Definition slider_ok (ev : Event) : Prop :=
  match ev with
  | EvStart _ total_q _ | EvRetry _ total_q _ => 3 <= total_q <= 20
  | _ => True
  end.

(** ** Further notions used in the statements *)

(** The misses of a tally, all clusters together. *)
Definition tally_total (quiz : Quiz) : Z :=
  fold_right Z.add 0 (map snd (weak_clusters quiz)).

(** The number of submissions of a session that find a question
    loaded. *)
Fixpoint submissions (df_all : list Question) (ops : list Op) (quiz : Quiz)
    : Z :=
  match ops with
  | [] => 0
  | op :: ops' =>
      match op, current_question quiz with
      | OpSubmit _, Some _ => 1
      | _, _ => 0
      end + submissions df_all ops' (apply_op df_all quiz op)
  end.

(** Whether consecutive elements of a list differ by at most one. *)
Fixpoint steps_of_one (l : list Z) : Prop :=
  match l with
  | a :: (b :: _) as t => Z.abs (b - a) <= 1 /\ steps_of_one t
  | _ => True
  end.

(** A dictionary in which no key occurs twice and no count is
    negative. *)
Definition tally_ok (quiz : Quiz) : Prop :=
  NoDup (dict_keys (weak_clusters quiz)) /\
  Forall (fun cm => 0 <= snd cm) (weak_clusters quiz).

(** What holds of the application while a round is on and after it:
    the bounds of the counters and of the clock. *)
Definition app_invariant (st : string * Quiz) : Prop :=
  let '(stage, quiz) := st in
  (stage = "quiz" ->
     started quiz = true /\
     3 <= total_questions quiz <= 20 /\
     0 <= question_index quiz < total_questions quiz /\
     (enable_timer quiz = true ->
      0 < time_left quiz <= 15 * total_questions quiz) /\
     question_index quiz + (if submitted quiz then 1 else 0)
       <= score quiz + tally_total quiz) /\
  (stage = "finished" ->
     started quiz = false /\
     3 <= total_questions quiz <= 20 /\
     0 <= question_index quiz <= total_questions quiz /\
     question_index quiz <= score quiz + tally_total quiz).

(** A round in English on [demo_bank], the display always completing:
    start, a first page, a right answer after two seconds, "Next
    Question" a second later, the page of the second question. *)
Definition always_renders (quiz : Quiz) : bool := true.

Definition demo_round : list Event :=
  [ EvStart "English" 3 true;
    EvQuiz 0 0 0 NoClick;
    EvQuiz 2 0 0 (ClickSubmit KeyC);
    EvQuiz 1 0 0 ClickNext;
    EvQuiz 0 0 0 NoClick ].

(** How the questions shown relate to the question index while a
    round is on and after it: one question per index passed, plus the
    one on display, and never more than the round has questions. *)
Definition shown_invariant (st : string * Quiz) : Prop :=
  let '(stage, quiz) := st in
  stage = "quiz" \/ stage = "finished" ->
  Z.of_nat (List.length (used_indices quiz))
    = question_index quiz
      + (match current_question quiz with Some _ => 1 | None => 0 end) /\
  Z.of_nat (List.length (used_indices quiz)) <= total_questions quiz.

(** * Properties *)

(** ** The string functions on examples *)

Example strip_both_sides : PyStr.strip "  b c	 " = "b c".
Proof. reflexivity. Qed.

Example strip_all_blank : PyStr.strip " 	 " = "".
Proof. reflexivity. Qed.

Example upper_mixed : PyStr.upper "a1-Bz" = "A1-BZ".
Proof. reflexivity. Qed.

Example normalise_padded_key : normalise " b " = "B".
Proof. reflexivity. Qed.

(** ** Answer judgement *)

Lemma correct_key_normalise q :
  correct_key q = normalise (Correct_Answer (snd q)).
Proof. reflexivity. Qed.

Lemma submit_answer_loaded choice_key quiz q :
  current_question quiz = Some q ->
  submit_answer choice_key quiz =
    Done (if (choice_key =? correct_key q)%string
          then set_correct quiz
          else set_wrong (correct_key q) quiz).
Proof.
  intros Hq. unfold submit_answer. rewrite Hq.
  destruct (choice_key =? correct_key q)%string; reflexivity.
Qed.

(** A radio key is already trimmed and in upper case. *)
Lemma normalise_radio_key choice : normalise (radio_key choice) = radio_key choice.
Proof. destruct choice; reflexivity. Qed.

(** C1: for every loaded question whose stored key is ASCII and every
    option key the radio offers, the submission is counted (score plus
    one, positive feedback) exactly when the chosen key and the stored
    key are equal after trimming and upper-casing both; otherwise the
    score is kept and the feedback names the normalised stored key.  A
    stored key that differs from the chosen one only in case or in
    surrounding whitespace is therefore counted. *)
Theorem submit_answer_judges_option_key (quiz : Quiz) (q : Row)
    (choice : RadioKey) :
  current_question quiz = Some q ->
  PyStr.is_ascii (Correct_Answer (snd q)) = true ->
  exists quiz',
    submit_answer (radio_key choice) quiz = Done quiz' /\
    (normalise (radio_key choice) = normalise (Correct_Answer (snd q)) ->
     score quiz' = score quiz + 1 /\
     feedback quiz' = "✅ Correct! Great job." /\
     weak_clusters quiz' = weak_clusters quiz) /\
    (normalise (radio_key choice) <> normalise (Correct_Answer (snd q)) ->
     score quiz' = score quiz /\
     feedback quiz'
       = "❌ Wrong! Correct answer: " ++ normalise (Correct_Answer (snd q))) /\
    (score quiz' = score quiz + 1 <->
     normalise (radio_key choice) = normalise (Correct_Answer (snd q))).
Proof.
  intros Hq _. rewrite (submit_answer_loaded _ _ _ Hq).
  rewrite correct_key_normalise, normalise_radio_key.
  destruct (String.eqb_spec (radio_key choice)
              (normalise (Correct_Answer (snd q)))) as [E | N].
  - exists (set_correct quiz). cbn [score feedback weak_clusters set_correct].
    repeat split; intros; try congruence; try lia.
  - exists (set_wrong (normalise (Correct_Answer (snd q))) quiz).
    cbn [score feedback set_wrong].
    repeat split; intros; try congruence; try lia.
Qed.

(** The stored key of the question loaded in [demo_maths] is [ b ],
    with a blank on either side: the radio key B is counted. *)
Lemma submit_answer_judges_option_key_witness :
  exists quiz',
    submit_answer "B" demo_maths = Done quiz' /\
    (normalise "B" = normalise " b " ->
     score quiz' = score demo_maths + 1 /\
     feedback quiz' = "✅ Correct! Great job." /\
     weak_clusters quiz' = weak_clusters demo_maths) /\
    (normalise "B" <> normalise " b " ->
     score quiz' = score demo_maths /\
     feedback quiz' = "❌ Wrong! Correct answer: " ++ normalise " b ") /\
    (score quiz' = score demo_maths + 1 <-> normalise "B" = normalise " b ").
Proof.
  apply (submit_answer_judges_option_key demo_maths
           (0%nat, mkQuestion "Mathematics" 2 "7 x 8 = ?"
                     "54" "56" "58" "64" " b ") KeyB);
    reflexivity.
Defined.

(** ** The weak-cluster tally *)

Lemma dict_get_set_same (d : list (Z * Z)) k v :
  dict_get Z.eqb (dict_set Z.eqb d k v) k = Some v.
Proof.
  induction d as [| [k' v'] d IH]; cbn.
  - now rewrite Z.eqb_refl.
  - destruct (Z.eqb_spec k' k) as [-> | N]; cbn.
    + now rewrite Z.eqb_refl.
    + destruct (Z.eqb_spec k' k); [contradiction | exact IH].
Qed.

Lemma dict_get_set_other (d : list (Z * Z)) k v c :
  c <> k ->
  dict_get Z.eqb (dict_set Z.eqb d k v) c = dict_get Z.eqb d c.
Proof.
  intros Hc. induction d as [| [k' v'] d IH]; cbn.
  - destruct (Z.eqb_spec k c); [congruence | reflexivity].
  - destruct (Z.eqb_spec k' k) as [-> | N]; cbn.
    + destruct (Z.eqb_spec k c); [congruence | reflexivity].
    + destruct (Z.eqb_spec k' c); [reflexivity | exact IH].
Qed.

Lemma dict_keys_set (d : list (Z * Z)) k v c :
  In c (dict_keys (dict_set Z.eqb d k v)) <-> c = k \/ In c (dict_keys d).
Proof.
  unfold dict_keys. induction d as [| [k' v'] d IH]; cbn.
  - intuition congruence.
  - destruct (Z.eqb_spec k' k) as [-> | N]; cbn.
    + intuition congruence.
    + rewrite IH. intuition congruence.
Qed.

(** C2, as the source has it: a miss is booked on the session's
    cluster as it stands when [submit_answer] is entered (before the
    regression of the same call); every other entry of the tally,
    the one of the question's own cluster included when that differs,
    is left as it was. *)
Theorem submit_answer_tallies_session_cluster (quiz : Quiz) (q : Row)
    (choice_key : string) :
  current_question quiz = Some q ->
  choice_key <> normalise (Correct_Answer (snd q)) ->
  exists quiz',
    submit_answer choice_key quiz = Done quiz' /\
    tally quiz' (cluster quiz) = tally quiz (cluster quiz) + 1 /\
    (forall c, c <> cluster quiz -> tally quiz' c = tally quiz c) /\
    (mode quiz = "normal" ->
     cluster quiz' = Z.max MIN_CLUSTER (cluster quiz - 1)).
Proof.
  intros Hq Hne. rewrite (submit_answer_loaded _ _ _ Hq).
  rewrite correct_key_normalise.
  destruct (String.eqb_spec choice_key (normalise (Correct_Answer (snd q))))
    as [E | _]; [contradiction |].
  eexists; split; [reflexivity |].
  unfold tally, dict_get_default; cbn [weak_clusters cluster set_wrong].
  split; [| split].
  - now rewrite dict_get_set_same.
  - intros c Hc. now rewrite dict_get_set_other.
  - intros ->. reflexivity.
Qed.

Lemma submit_answer_tallies_session_cluster_witness :
  exists quiz',
    submit_answer "A" demo_maths = Done quiz' /\
    tally quiz' 4 = tally demo_maths 4 + 1 /\
    (forall c, c <> 4 -> tally quiz' c = tally demo_maths c) /\
    (mode demo_maths = "normal" -> cluster quiz' = Z.max MIN_CLUSTER (4 - 1)).
Proof.
  apply (submit_answer_tallies_session_cluster demo_maths
           (0%nat, mkQuestion "Mathematics" 2 "7 x 8 = ?"
                     "54" "56" "58" "64" " b ") "A").
  - reflexivity.
  - vm_compute. discriminate.
Defined.

(** C2 fails as stated: in [demo_maths] the start cluster 4 has no
    question, the question comes from the widened frame and belongs to
    cluster 2; the miss is booked on cluster 4 and the entry of
    cluster 2 is not incremented. *)
Lemma submit_answer_widened_counterexample :
  exists q quiz',
    cluster_eq 4 (subject_frame demo_bank "Mathematics") = [] /\
    current_question demo_maths = Some q /\
    row_cluster q = 2 /\
    cluster demo_maths = 4 /\
    submit_answer "A" demo_maths = Done quiz' /\
    weak_clusters quiz' = [(4, 1)] /\
    tally quiz' (row_cluster q) <> tally demo_maths (row_cluster q) + 1.
Proof.
  eexists. eexists. repeat split; try reflexivity.
  vm_compute. discriminate.
Qed.

(** ** Session creation *)

Lemma mid_cases subj :
  (subj = "English" /\ mid subj = 3) \/
  (subj = "Mathematics" /\ mid subj = 4) \/
  (dict_get String.eqb CLUSTER_LIMITS subj = None /\ mid subj = 3).
Proof.
  unfold mid, dict_get_default, CLUSTER_LIMITS; cbn [dict_get].
  destruct (String.eqb_spec "English" subj) as [<- | _]; [now left |].
  destruct (String.eqb_spec "Mathematics" subj) as [<- | _]; [now (right; left) |].
  right; right. split; reflexivity.
Qed.

Lemma limit_cases subj L :
  dict_get String.eqb CLUSTER_LIMITS subj = Some L -> L = 7 \/ L = 8.
Proof.
  unfold CLUSTER_LIMITS; cbn [dict_get].
  destruct (String.eqb "English" subj); [intros [= <-]; now left |].
  destruct (String.eqb "Mathematics" subj); [intros [= <-]; now right |].
  discriminate.
Qed.

(** C3, as the source has it: [reset_quiz_state] never refuses.  In
    weak_only mode without candidates (an empty list, or none given) it
    starts a session at [mid] with an empty tally and an empty
    candidate list.  The emptiness test is made by the two "Retry Weak
    Areas" buttons: with no cluster of positive miss count they show a
    notice and leave stage and quiz state alone; otherwise the session
    they start has a non-empty candidate list. *)
Theorem reset_quiz_state_weak_only_without_candidates (subj : string)
    (total_q : Z) (timer : bool) (stage : string) (quiz : Quiz) :
  (forall wl, wl = None \/ wl = Some [] ->
     let fresh := reset_quiz_state subj total_q "weak_only" wl timer in
     started fresh = true /\ mode fresh = "weak_only" /\
     cluster fresh = mid subj /\ weak_clusters fresh = [] /\
     weak_only_list fresh = [] /\ total_questions fresh = total_q) /\
  (weak_list_of quiz = [] ->
     retry_weak_areas_subject_page subj total_q timer stage quiz =
       (stage, quiz,
        Some "No recorded weak areas yet. Try a normal quiz first.") /\
     retry_weak_areas_finished_page stage quiz =
       (stage, quiz, Some "No weak areas recorded. Try a quiz first.")) /\
  (weak_list_of quiz <> [] ->
     exists fresh1 fresh2,
       retry_weak_areas_subject_page subj total_q timer stage quiz =
         ("quiz", fresh1, None) /\
       retry_weak_areas_finished_page stage quiz = ("quiz", fresh2, None) /\
       weak_only_list fresh1 = weak_list_of quiz /\
       weak_only_list fresh2 = weak_list_of quiz /\
       mode fresh1 = "weak_only" /\ mode fresh2 = "weak_only").
Proof.
  split; [| split].
  - intros wl [-> | ->]; cbn; repeat split.
  - intros H. unfold retry_weak_areas_subject_page,
      retry_weak_areas_finished_page. rewrite H. split; reflexivity.
  - intros H. unfold retry_weak_areas_subject_page,
      retry_weak_areas_finished_page.
    destruct (weak_list_of quiz) as [| c l]; [contradiction |].
    do 2 eexists. repeat split.
Qed.

Lemma reset_quiz_state_weak_only_without_candidates_witness :
  let quiz := reset_quiz_state "English" 5 "normal" None true in
  retry_weak_areas_subject_page "English" 5 true "subject" quiz =
    ("subject", quiz,
     Some "No recorded weak areas yet. Try a normal quiz first.") /\
  retry_weak_areas_finished_page "subject" quiz =
    ("subject", quiz, Some "No weak areas recorded. Try a quiz first.").
Proof.
  intro quiz.
  apply (proj1 (proj2 (reset_quiz_state_weak_only_without_candidates
                         "English" 5 true "subject" quiz))).
  reflexivity.
Defined.

(** C3 fails as stated: the call of the scenario starts a session, and
    that session goes on to load a question. *)
Lemma reset_quiz_state_no_weak_areas_counterexample :
  let quiz := reset_quiz_state "English" 5 "weak_only" (Some []) true in
  started quiz = true /\
  mode quiz = "weak_only" /\
  weak_only_list quiz = [] /\
  cluster quiz = 3 /\
  fst (load_next_question demo_bank 0 0 quiz) = true.
Proof. repeat split. Qed.

(** C8, as the source has it: [reset_quiz_state] does not look at the
    count.  For every count, those below 1 included, it does not fail
    and starts a fresh session that stores the count as given. *)
Theorem reset_quiz_state_any_total (subj : string) (total_q : Z)
    (mode_ : string) (wl : option (list Z)) (timer : bool) :
  let fresh := reset_quiz_state subj total_q mode_ wl timer in
  started fresh = true /\
  total_questions fresh = total_q /\
  question_index fresh = 0 /\
  score fresh = 0 /\
  current_question fresh = None.
Proof. cbn. repeat split. Qed.

(** C8 fails as stated: counts 0 and -3 both start a session. *)
Lemma reset_quiz_state_total_counterexample :
  started (reset_quiz_state "English" 0 "normal" None true) = true /\
  total_questions (reset_quiz_state "English" 0 "normal" None true) = 0 /\
  started (reset_quiz_state "Mathematics" (-3) "normal" None false) = true /\
  total_questions (reset_quiz_state "Mathematics" (-3) "normal" None false)
    = -3.
Proof. repeat split. Qed.

(** Half of [L] is the midpoint of [MIN_CLUSTER]..[L] exactly when [L]
    is even. *)
Lemma half_is_midpoint_iff_even L :
  L / 2 = range_midpoint MIN_CLUSTER L <-> Z.even L = true.
Proof.
  unfold range_midpoint, MIN_CLUSTER.
  destruct (Z.even L) eqn:E.
  - apply Z.even_spec in E as [k ->].
    split; [reflexivity | intros _]. Z.div_mod_to_equations. lia.
  - rewrite <- Z.negb_odd in E. apply negb_false_iff, Z.odd_spec in E.
    destruct E as [k ->].
    split; [| discriminate]. intros H. exfalso.
    revert H. Z.div_mod_to_equations. lia.
Qed.

(** C7, as the source has it: the start cluster of normal mode is half
    the subject's limit, rounded down (the limit being taken as 6 for a
    subject without one): 4 for Mathematics, 3 for English.  That is the
    midpoint of 0..limit, and of [MIN_CLUSTER]..limit only when the
    limit is even.  In weak_only mode it is the first candidate, and
    that same half when there is none. *)
Theorem reset_quiz_state_start_cluster (subj : string) (total_q : Z)
    (wl : option (list Z)) (timer : bool) :
  let limit := dict_get_default String.eqb CLUSTER_LIMITS subj 6 in
  cluster (reset_quiz_state subj total_q "normal" wl timer) = limit / 2 /\
  limit / 2 = range_midpoint 0 limit /\
  (limit / 2 = range_midpoint MIN_CLUSTER limit <-> Z.even limit = true) /\
  cluster (reset_quiz_state "Mathematics" total_q "normal" wl timer) = 4 /\
  range_midpoint MIN_CLUSTER 8 = 4 /\
  cluster (reset_quiz_state "English" total_q "normal" wl timer) = 3 /\
  (forall c l,
     cluster (reset_quiz_state subj total_q "weak_only" (Some (c :: l)) timer)
       = c) /\
  cluster (reset_quiz_state subj total_q "weak_only" (Some []) timer)
    = limit / 2 /\
  cluster (reset_quiz_state subj total_q "weak_only" None timer) = limit / 2.
Proof.
  cbn zeta. split; [reflexivity |]. split; [reflexivity |].
  split; [apply half_is_midpoint_iff_even |]. cbn. repeat split.
Qed.

(** C7 fails as stated: the range of English is 1..7, whose midpoint is
    4, and a fresh normal session in English starts at cluster 3. *)
Lemma reset_quiz_state_midpoint_counterexample :
  dict_get String.eqb CLUSTER_LIMITS "English" = Some 7 /\
  range_midpoint MIN_CLUSTER 7 = 4 /\
  cluster (reset_quiz_state "English" 5 "normal" None true) = 3 /\
  cluster (reset_quiz_state "English" 5 "normal" None true)
    <> range_midpoint MIN_CLUSTER 7.
Proof. repeat split. vm_compute. discriminate. Qed.

(** ** Answers in weak_only mode *)

(** C9: in weak_only mode [submit_answer] on a loaded question returns
    normally and leaves the current cluster as it was, whatever the
    chosen key. *)
Theorem submit_answer_weak_only_keeps_cluster (quiz : Quiz) (q : Row)
    (choice_key : string) :
  mode quiz = "weak_only" ->
  current_question quiz = Some q ->
  exists quiz',
    submit_answer choice_key quiz = Done quiz' /\
    cluster quiz' = cluster quiz.
Proof.
  intros Hm Hq. rewrite (submit_answer_loaded _ _ _ Hq).
  destruct (choice_key =? correct_key q)%string;
    eexists; (split; [reflexivity |]); cbn; now rewrite Hm.
Qed.

Lemma submit_answer_weak_only_keeps_cluster_witness :
  let quiz :=
    snd (load_next_question demo_bank 0 0
           (reset_quiz_state "English" 5 "weak_only" (Some [5; 3]) true)) in
  exists quiz',
    submit_answer "B" quiz = Done quiz' /\ cluster quiz' = cluster quiz.
Proof.
  intro quiz.
  apply (submit_answer_weak_only_keeps_cluster quiz
           (1%nat, mkQuestion "English" 5 "Opposite of hot?"
                     "cold" "warm" "dry" "tall" "a") "B");
    reflexivity.
Defined.

(** ** What an operation leaves alone *)

Lemma Zmem_In c l : Zmem c l = true <-> In c l.
Proof.
  unfold Zmem. rewrite existsb_exists. split.
  - intros [x [Hx E]]. apply Z.eqb_eq in E. now subst.
  - intros H. exists c. split; [assumption | apply Z.eqb_refl].
Qed.

Lemma weak_mode_true quiz :
  weak_mode quiz = true <->
  mode quiz = "weak_only" /\ weak_only_list quiz <> [].
Proof.
  unfold weak_mode. rewrite andb_true_iff, String.eqb_eq.
  destruct (weak_only_list quiz); intuition congruence.
Qed.

Lemma weak_mode_normal quiz : mode quiz = "normal" -> weak_mode quiz = false.
Proof. unfold weak_mode. now intros ->. Qed.

Lemma random_choice_In r l : l <> [] -> In (random_choice r l) l.
Proof.
  intros Hl. unfold random_choice. apply nth_In.
  apply Nat.mod_upper_bound. destruct l; [contradiction | discriminate].
Qed.

(** The re-draw touches the cluster and nothing else. *)
Lemma retarget_frame r quiz :
  let quiz1 := snd (retarget r quiz) in
  fst (retarget r quiz) = cluster quiz1 /\
  mode quiz1 = mode quiz /\ subject quiz1 = subject quiz /\
  weak_only_list quiz1 = weak_only_list quiz /\
  used_indices quiz1 = used_indices quiz /\
  current_question quiz1 = current_question quiz /\
  weak_clusters quiz1 = weak_clusters quiz /\
  score quiz1 = score quiz /\
  weak_mode quiz1 = weak_mode quiz.
Proof.
  unfold retarget.
  destruct (weak_mode quiz) eqn:W;
    [destruct (Zmem (cluster quiz) (weak_only_list quiz)) |];
    cbn [fst snd negb]; rewrite ?W; repeat split.
  exact W.
Qed.

Lemma retarget_cluster r quiz :
  cluster (snd (retarget r quiz)) =
    if weak_mode quiz && negb (Zmem (cluster quiz) (weak_only_list quiz))
    then random_choice r (weak_only_list quiz)
    else cluster quiz.
Proof.
  unfold retarget.
  destruct (weak_mode quiz);
    [destruct (Zmem (cluster quiz) (weak_only_list quiz)) |]; reflexivity.
Qed.

Lemma sample_None r df : sample r df = None <-> df = [].
Proof.
  unfold sample. split.
  - intros H. destruct df as [| a df]; [reflexivity |].
    apply nth_error_None in H.
    assert (r mod List.length (a :: df) < List.length (a :: df))%nat as B
      by (apply Nat.mod_upper_bound; discriminate).
    lia.
  - intros ->. apply nth_error_None. cbn. lia.
Qed.

Lemma sample_In r df q : sample r df = Some q -> In q df.
Proof. unfold sample. apply nth_error_In. Qed.

(** The two outcomes of a selection. *)
Lemma load_next_question_cases df_all r_choice r_sample quiz :
  let quiz1 := snd (retarget r_choice quiz) in
  let subset :=
    pool (subject_frame df_all (subject quiz)) (cluster quiz1) quiz1 in
  (subset = [] /\
   load_next_question df_all r_choice r_sample quiz = (false, quiz1)) \/
  (exists q, In q subset /\
   load_next_question df_all r_choice r_sample quiz
     = (true, set_loaded q quiz1)).
Proof.
  cbn zeta. unfold load_next_question.
  pose proof (retarget_frame r_choice quiz) as [Ht _]. cbn zeta in Ht.
  destruct (retarget r_choice quiz) as [t quiz1]. cbn [fst snd] in *. subst t.
  destruct (sample r_sample _) as [q |] eqn:S.
  - right. exists q. split; [eapply sample_In; eassumption | reflexivity].
  - left. split; [now apply sample_None in S | reflexivity].
Qed.

Lemma drop_In labels df q :
  In q (drop labels df) <-> In q df /\ ~ In (row_name q) labels.
Proof.
  unfold drop. rewrite filter_In, negb_true_iff.
  split; intros [H1 H2]; split; try assumption.
  - intros Hin. assert (existsb (Nat.eqb (row_name q)) labels = true) as E.
    { apply existsb_exists. exists (row_name q).
      split; [assumption | apply Nat.eqb_refl]. }
    congruence.
  - destruct (existsb (Nat.eqb (row_name q)) labels) eqn:E; [| reflexivity].
    apply existsb_exists in E. destruct E as [x [Hx E]].
    apply Nat.eqb_eq in E. subst x. contradiction.
Qed.

Lemma cluster_eq_In c df q :
  In q (cluster_eq c df) <-> In q df /\ row_cluster q = c.
Proof. unfold cluster_eq. now rewrite filter_In, Z.eqb_eq. Qed.

Lemma cluster_isin_In l df q :
  In q (cluster_isin l df) <-> In q df /\ In (row_cluster q) l.
Proof. unfold cluster_isin. now rewrite filter_In, Zmem_In. Qed.

(** Every row of the sampled frame is an unused row of the frame it is
    built from. *)
Lemma pool_unused df_subj target quiz q :
  In q (pool df_subj target quiz) ->
  In q df_subj /\ ~ In (row_name q) (used_indices quiz).
Proof.
  unfold pool.
  destruct (drop (used_indices quiz) (cluster_eq target df_subj)) eqn:E.
  - destruct (weak_mode quiz); rewrite drop_In;
      [rewrite cluster_isin_In |]; tauto.
  - rewrite <- E, drop_In, cluster_eq_In. tauto.
Qed.

Lemma apply_op_config df_all quiz op :
  mode (apply_op df_all quiz op) = mode quiz /\
  subject (apply_op df_all quiz op) = subject quiz /\
  weak_only_list (apply_op df_all quiz op) = weak_only_list quiz.
Proof.
  destruct op as [rc rs | choice_key | |]; cbn [apply_op].
  - pose proof (retarget_frame rc quiz) as (_ & Hm & Hs & Hw & _).
    cbn zeta in *.
    destruct (load_next_question_cases df_all rc rs quiz)
      as [[_ ->] | [q [_ ->]]]; cbn; auto.
  - unfold submit_answer. destruct (current_question quiz); [| auto].
    destruct (choice_key =? correct_key r)%string; cbn; auto.
  - unfold next_question. cbn.
    destruct (total_questions quiz <=? question_index quiz + 1); cbn; auto.
  - cbn; auto.
Qed.

(** ** No question twice *)

Lemma map_fst_combine {A B : Type} (l : list A) :
  forall l' : list B, List.length l = List.length l' ->
  map fst (combine l l') = l.
Proof.
  induction l as [| a l IH]; intros [| b l'] H; cbn in *;
    try discriminate; try reflexivity.
  f_equal. apply IH. now injection H.
Qed.

(** Labels identify the rows of a re-indexed frame. *)
Lemma subject_frame_labels df_all subj :
  NoDup (map row_name (subject_frame df_all subj)).
Proof.
  unfold subject_frame, reset_index.
  set (rows := filter _ df_all).
  change (NoDup (map fst (combine (seq 0 (List.length rows)) rows))).
  rewrite (map_fst_combine _ rows (length_seq _ _)).
  apply seq_NoDup.
Qed.

(** A selection either fails and leaves the used list and the current
    question alone, or loads an unused row of the subject and appends
    its label. *)
Lemma load_next_question_fresh df_all r_choice r_sample quiz :
  (fst (load_next_question df_all r_choice r_sample quiz) = false /\
   used_indices (snd (load_next_question df_all r_choice r_sample quiz))
     = used_indices quiz /\
   current_question (snd (load_next_question df_all r_choice r_sample quiz))
     = current_question quiz) \/
  (exists q,
     fst (load_next_question df_all r_choice r_sample quiz) = true /\
     current_question (snd (load_next_question df_all r_choice r_sample quiz))
       = Some q /\
     In q (subject_frame df_all (subject quiz)) /\
     ~ In (row_name q) (used_indices quiz) /\
     used_indices (snd (load_next_question df_all r_choice r_sample quiz))
       = (used_indices quiz ++ [row_name q])%list).
Proof.
  pose proof (retarget_frame r_choice quiz) as (_ & _ & _ & _ & Hu & Hc & _).
  cbn zeta in *.
  destruct (load_next_question_cases df_all r_choice r_sample quiz)
    as [[_ ->] | [q [Hin ->]]]; cbn [fst snd].
  - left. auto.
  - right. exists q. apply pool_unused in Hin. rewrite Hu in Hin.
    cbn [current_question used_indices set_loaded]. rewrite Hu. tauto.
Qed.

Lemma apply_op_used df_all quiz op :
  NoDup (used_indices quiz) ->
  used_indices (apply_op df_all quiz op)
    = (used_indices quiz ++ selected df_all [op] quiz)%list /\
  NoDup (used_indices (apply_op df_all quiz op)).
Proof.
  intros ND.
  assert ((used_indices quiz ++ [])%list = used_indices quiz) as Hnil
    by apply app_nil_r.
  destruct op as [rc rs | choice_key | |]; cbn [apply_op selected].
  - destruct (load_next_question_fresh df_all rc rs quiz)
      as [(Hf & Hu & _) | (q & Ht & Hq & _ & Hfresh & Hu)];
      destruct (load_next_question df_all rc rs quiz) as [b quiz'];
      cbn [fst snd] in *; subst b.
    + rewrite Hu, Hnil. auto.
    + rewrite Hq, Hu. split; [reflexivity |].
      apply NoDup_app; [assumption | repeat constructor; intros [] |].
      intros a Ha [<- | []]. contradiction.
  - rewrite Hnil. unfold submit_answer.
    destruct (current_question quiz); [| auto].
    destruct (choice_key =? correct_key r)%string; cbn; auto.
  - rewrite Hnil. unfold next_question. cbn.
    destruct (total_questions quiz <=? question_index quiz + 1); cbn; auto.
  - rewrite Hnil. cbn. auto.
Qed.

Lemma selected_cons df_all op ops quiz :
  selected df_all (op :: ops) quiz
    = (selected df_all [op] quiz
       ++ selected df_all ops (apply_op df_all quiz op))%list.
Proof.
  cbn [selected]. destruct op; try reflexivity.
  destruct (load_next_question df_all r_choice r_sample quiz) as [[|] quiz'];
    [destruct (current_question quiz') |]; reflexivity.
Qed.

Lemma run_used df_all ops :
  forall quiz,
    NoDup (used_indices quiz) ->
    used_indices (run df_all ops quiz)
      = (used_indices quiz ++ selected df_all ops quiz)%list /\
    NoDup (used_indices (run df_all ops quiz)).
Proof.
  induction ops as [| op ops IH]; intros quiz ND.
  - cbn. rewrite app_nil_r. auto.
  - destruct (apply_op_used df_all quiz op ND) as [Hu ND'].
    destruct (IH _ ND') as [Hr NDr].
    change (run df_all (op :: ops) quiz)
      with (run df_all ops (apply_op df_all quiz op)).
    split; [| assumption].
    rewrite Hr, Hu, (selected_cons df_all op ops quiz).
    symmetry. apply app_assoc.
Qed.

(** C4: in a session started by [reset_quiz_state] (any subject, any
    mode, any candidates) and continued by any operations with any
    draws, the used list is exactly the sequence of identifiers picked
    by the successful selections, it has no repetition, identifiers
    name distinct rows of the subject's frame, and every frame sampled
    afterwards, whatever the target cluster, holds unused rows only. *)
Theorem no_question_selected_twice (df_all : list Question) (subj : string)
    (total_q : Z) (mode_ : string) (wl : option (list Z)) (timer : bool)
    (ops : list Op) :
  let quiz0 := reset_quiz_state subj total_q mode_ wl timer in
  let quiz := run df_all ops quiz0 in
  used_indices quiz = selected df_all ops quiz0 /\
  NoDup (selected df_all ops quiz0) /\
  NoDup (map row_name (subject_frame df_all (subject quiz))) /\
  (forall target q,
     In q (pool (subject_frame df_all (subject quiz)) target quiz) ->
     ~ In (row_name q) (selected df_all ops quiz0)) /\
  (forall r_choice r_sample q,
     load_next_question df_all r_choice r_sample quiz
       = (true, set_loaded q (snd (retarget r_choice quiz))) ->
     ~ In (row_name q) (selected df_all ops quiz0)).
Proof.
  intros quiz0 quiz.
  assert (NoDup (used_indices quiz0)) as ND0 by constructor.
  destruct (run_used df_all ops quiz0 ND0) as [Hu ND].
  change (used_indices quiz0) with (@nil nat) in Hu. cbn [app] in Hu.
  fold quiz in Hu, ND. rewrite <- Hu.
  split; [reflexivity |]. split; [assumption |].
  split; [apply subject_frame_labels |]. split.
  - intros target q Hin. now apply pool_unused in Hin.
  - intros rc rs q Hload.
    destruct (load_next_question_fresh df_all rc rs quiz)
      as [(Hf & _) | (q' & _ & Hq & _ & Hfresh & _)];
      rewrite Hload in *; cbn [fst snd] in *; [discriminate |].
    cbn in Hq. injection Hq as <-. assumption.
Qed.

(** After the first selection of an English round the frame sampled for
    any target holds only the other question. *)
Lemma no_question_selected_twice_witness :
  let quiz0 := reset_quiz_state "English" 5 "normal" None true in
  let q := (1%nat, mkQuestion "English" 5 "Opposite of hot?"
                     "cold" "warm" "dry" "tall" "a") in
  ~ In (row_name q) (selected demo_bank [OpLoad 0 0] quiz0).
Proof.
  intros quiz0 q.
  destruct (no_question_selected_twice demo_bank "English" 5 "normal" None
              true [OpLoad 0 0]) as (_ & _ & _ & Hpool & _).
  apply (Hpool 5 q). cbn. auto.
Defined.

(** ** Cluster moves in normal mode *)

(** The only operation that moves the cluster of a normal session is a
    submission on a loaded question. *)
Lemma apply_op_cluster_normal df_all quiz op :
  mode quiz = "normal" ->
  cluster (apply_op df_all quiz op) =
    match op, current_question quiz with
    | OpSubmit choice_key, Some q =>
        if (choice_key =? correct_key q)%string
        then Z.min (dict_get_default String.eqb CLUSTER_LIMITS (subject quiz)
                      (cluster quiz + 1))
                   (cluster quiz + 1)
        else Z.max MIN_CLUSTER (cluster quiz - 1)
    | _, _ => cluster quiz
    end.
Proof.
  intros Hm. destruct op as [rc rs | choice_key | |]; cbn [apply_op].
  - assert (cluster (snd (retarget rc quiz)) = cluster quiz) as Hc.
    { rewrite retarget_cluster, (weak_mode_normal _ Hm). reflexivity. }
    destruct (load_next_question_cases df_all rc rs quiz)
      as [[_ ->] | [q [_ ->]]]; cbn [snd cluster set_loaded];
      rewrite Hc; now destruct (current_question quiz).
  - unfold submit_answer. destruct (current_question quiz) as [q |];
      [| reflexivity].
    destruct (choice_key =? correct_key q)%string; cbn; now rewrite Hm.
  - unfold next_question. cbn.
    destruct (total_questions quiz <=? question_index quiz + 1); cbn;
      now destruct (current_question quiz).
  - cbn. now destruct (current_question quiz).
Qed.

Lemma non_decreasing_cons a l :
  (forall b, hd_error l = Some b -> a <= b) ->
  non_decreasing l -> non_decreasing (a :: l).
Proof. destruct l as [| b l]; cbn; auto. Qed.

Lemma non_increasing_cons a l :
  (forall b, hd_error l = Some b -> b <= a) ->
  non_increasing l -> non_increasing (a :: l).
Proof. destruct l as [| b l]; cbn; auto. Qed.

Lemma trace_hd df_all ops quiz :
  hd_error (map cluster (trace df_all ops quiz)) = Some (cluster quiz).
Proof. destruct ops; reflexivity. Qed.

(** All submissions matching: from under the limit (if the subject has
    one) the cluster climbs and stays under it. *)
Lemma normal_all_correct df_all ops :
  forall quiz,
    mode quiz = "normal" ->
    (forall L,
       dict_get String.eqb CLUSTER_LIMITS (subject quiz) = Some L ->
       cluster quiz <= L) ->
    all_judged true df_all ops quiz = true ->
    non_decreasing (map cluster (trace df_all ops quiz)) /\
    (forall L,
       dict_get String.eqb CLUSTER_LIMITS (subject quiz) = Some L ->
       Forall (fun c => c <= L) (map cluster (trace df_all ops quiz))).
Proof.
  induction ops as [| op ops IH]; intros quiz Hm Hb Hj.
  - cbn. split; [exact I | intros; repeat constructor; auto].
  - cbn [all_judged] in Hj. apply andb_true_iff in Hj as [Hop Hj].
    destruct (apply_op_config df_all quiz op) as (Hm' & Hs' & _).
    rewrite Hm in Hm'.
    pose proof (apply_op_cluster_normal df_all quiz op Hm) as Hc.
    assert (cluster quiz <= cluster (apply_op df_all quiz op) /\
            forall L,
              dict_get String.eqb CLUSTER_LIMITS (subject quiz) = Some L ->
              cluster (apply_op df_all quiz op) <= L)
      as [Hup Hle].
    { rewrite Hc. destruct op as [rc rs | choice_key | |];
        try (split; [lia | exact Hb]).
      destruct (current_question quiz) as [q |]; [| split; [lia | exact Hb]].
      rewrite eqb_true_iff in Hop. rewrite Hop.
      unfold dict_get_default.
      destruct (dict_get String.eqb CLUSTER_LIMITS (subject quiz)) as [L0 |].
      - specialize (Hb L0 eq_refl). split; [lia | intros L [= ->]; lia].
      - split; [lia | discriminate]. }
    rewrite <- Hs' in Hle.
    destruct (IH _ Hm' Hle Hj) as [IHmono IHbound].
    cbn [trace map]. split.
    + apply non_decreasing_cons; [| exact IHmono].
      rewrite trace_hd. now intros b [= <-].
    + intros L HL. constructor; [now apply Hb |].
      apply IHbound. now rewrite Hs'.
Qed.

(** No submission matching: from [MIN_CLUSTER] or above the cluster
    descends and stays there. *)
Lemma normal_all_incorrect df_all ops :
  forall quiz,
    mode quiz = "normal" ->
    MIN_CLUSTER <= cluster quiz ->
    all_judged false df_all ops quiz = true ->
    non_increasing (map cluster (trace df_all ops quiz)) /\
    Forall (fun c => MIN_CLUSTER <= c) (map cluster (trace df_all ops quiz)).
Proof.
  induction ops as [| op ops IH]; intros quiz Hm Hb Hj.
  - cbn. split; [exact I | repeat constructor; auto].
  - cbn [all_judged] in Hj. apply andb_true_iff in Hj as [Hop Hj].
    destruct (apply_op_config df_all quiz op) as (Hm' & _).
    rewrite Hm in Hm'.
    pose proof (apply_op_cluster_normal df_all quiz op Hm) as Hc.
    assert (cluster (apply_op df_all quiz op) <= cluster quiz /\
            MIN_CLUSTER <= cluster (apply_op df_all quiz op))
      as [Hdown Hge].
    { rewrite Hc. destruct op as [rc rs | choice_key | |]; try lia.
      destruct (current_question quiz) as [q |]; [| lia].
      rewrite eqb_true_iff in Hop. rewrite Hop. lia. }
    destruct (IH _ Hm' Hge Hj) as [IHmono IHbound].
    cbn [trace map]. split.
    + apply non_increasing_cons; [| exact IHmono].
      rewrite trace_hd. now intros b [= <-].
    + constructor; assumption.
Qed.

(** C5: a normal session started by [reset_quiz_state] and continued by
    any operations.  If every submission matches, the cluster never
    goes down from one state to the next and never exceeds the limit of
    the subject; if none matches, it never goes up and never falls
    below [MIN_CLUSTER]. *)
Theorem normal_mode_cluster_monotone (df_all : list Question)
    (subj : string) (total_q : Z) (wl : option (list Z)) (timer : bool)
    (ops : list Op) (verdict : bool) :
  let quiz0 := reset_quiz_state subj total_q "normal" wl timer in
  let clusters := map cluster (trace df_all ops quiz0) in
  all_judged verdict df_all ops quiz0 = true ->
  if verdict
  then non_decreasing clusters /\
       (forall L,
          dict_get String.eqb CLUSTER_LIMITS subj = Some L ->
          Forall (fun c => c <= L) clusters)
  else non_increasing clusters /\
       Forall (fun c => MIN_CLUSTER <= c) clusters.
Proof.
  intros quiz0 clusters Hj.
  assert (cluster quiz0 = mid subj) as Hc0 by reflexivity.
  destruct verdict.
  - apply (normal_all_correct df_all ops quiz0); [reflexivity | | exact Hj].
    intros L HL. rewrite Hc0. cbn [subject quiz0 reset_quiz_state] in HL.
    destruct (mid_cases subj) as [[-> ->] | [[-> ->] | [E _]]];
      [injection HL as <-; lia | injection HL as <-; lia | congruence].
  - apply (normal_all_incorrect df_all ops quiz0); [reflexivity | | exact Hj].
    rewrite Hc0. unfold MIN_CLUSTER.
    destruct (mid_cases subj) as [[_ ->] | [[_ ->] | [_ ->]]]; lia.
Qed.

(** Two matching answers in English take the cluster from 3 to 5;
    three misses take it from 3 down to 1, where it stays. *)
Lemma normal_mode_cluster_monotone_witness :
  let up := [OpLoad 0 0; OpSubmit "C"; OpNext; OpLoad 0 0; OpSubmit "A"] in
  let down := [OpLoad 0 0; OpSubmit "D"; OpSubmit "D"; OpSubmit "D"] in
  let quiz0 := reset_quiz_state "English" 5 "normal" None true in
  (non_decreasing (map cluster (trace demo_bank up quiz0)) /\
   (forall L,
      dict_get String.eqb CLUSTER_LIMITS "English" = Some L ->
      Forall (fun c => c <= L) (map cluster (trace demo_bank up quiz0)))) /\
  (non_increasing (map cluster (trace demo_bank down quiz0)) /\
   Forall (fun c => MIN_CLUSTER <= c)
     (map cluster (trace demo_bank down quiz0))).
Proof.
  intros up down quiz0. split.
  - apply (normal_mode_cluster_monotone demo_bank "English" 5 None true
             up true).
    reflexivity.
  - apply (normal_mode_cluster_monotone demo_bank "English" 5 None true
             down false).
    reflexivity.
Defined.

(** ** Selection and widening *)

(** Membership in the sampled frame, in terms of the frame it is built
    from: an unused row of the target cluster, or, when there is none,
    an unused row of the widened frame. *)
Lemma pool_In df_subj target quiz q :
  In q (pool df_subj target quiz) <->
  (In q df_subj /\ ~ In (row_name q) (used_indices quiz) /\
   row_cluster q = target) \/
  ((forall q', ~ (In q' df_subj /\ ~ In (row_name q') (used_indices quiz) /\
                  row_cluster q' = target)) /\
   In q df_subj /\ ~ In (row_name q) (used_indices quiz) /\
   (mode quiz = "weak_only" /\ weak_only_list quiz <> [] ->
    In (row_cluster q) (weak_only_list quiz))).
Proof.
  assert (forall q', In q' (drop (used_indices quiz) (cluster_eq target df_subj))
            <-> In q' df_subj /\ ~ In (row_name q') (used_indices quiz) /\
                row_cluster q' = target) as Hnarrow.
  { intros q'. rewrite drop_In, cluster_eq_In. tauto. }
  unfold pool.
  destruct (drop (used_indices quiz) (cluster_eq target df_subj))
    as [| a l] eqn:E.
  - assert (forall q', ~ (In q' df_subj /\
                          ~ In (row_name q') (used_indices quiz) /\
                          row_cluster q' = target)) as Hnone.
    { intros q' H. now apply Hnarrow in H. }
    pose proof (weak_mode_true quiz) as W.
    destruct (weak_mode quiz).
    + rewrite drop_In, cluster_isin_In. split.
      * intros [[H1 H2] H3]. right. tauto.
      * intros [H | (_ & H1 & H2 & H3)]; [now apply Hnone in H |].
        repeat split; try assumption. apply H3. now apply W.
    + rewrite drop_In. split.
      * intros [H1 H2]. right. repeat split; try assumption.
        intros H. apply W in H. discriminate.
      * intros [H | (_ & H1 & H2 & _)]; [now apply Hnone in H | tauto].
  - rewrite <- Hnarrow. split; [now left |].
    intros [H | [Hnone _]]; [assumption |].
    exfalso. apply (Hnone a). apply Hnarrow. now left.
Qed.

(** The outcome of a selection on any state, whether the candidate
    list is empty or not.  With [target] the session's cluster (after
    the re-draw of weak_only mode), the eligible rows are the unused
    rows of the subject in the target cluster or, when there is none,
    the unused rows of the subject (whose cluster is a candidate, when
    the mode is weak_only and the candidate list is not empty). *)
Lemma load_next_question_by_pool (df_all : list Question)
    (r_choice r_sample : nat) (quiz : Quiz) :
  let df_subj := subject_frame df_all (subject quiz) in
  let quiz1 := snd (retarget r_choice quiz) in
  let target := cluster quiz1 in
  let weak := mode quiz = "weak_only" /\ weak_only_list quiz <> [] in
  let unused q := In q df_subj /\ ~ In (row_name q) (used_indices quiz) in
  let narrow q := unused q /\ row_cluster q = target in
  let wide q :=
    unused q /\ (weak -> In (row_cluster q) (weak_only_list quiz)) in
  let eligible q := narrow q \/ ((forall q', ~ narrow q') /\ wide q) in
  (target = if weak_mode quiz &&
               negb (Zmem (cluster quiz) (weak_only_list quiz))
            then random_choice r_choice (weak_only_list quiz)
            else cluster quiz) /\
  ((forall q, ~ eligible q) ->
     load_next_question df_all r_choice r_sample quiz = (false, quiz1) /\
     current_question quiz1 = current_question quiz /\
     used_indices quiz1 = used_indices quiz) /\
  ((exists q, eligible q) ->
     exists q,
       eligible q /\
       load_next_question df_all r_choice r_sample quiz
         = (true, set_loaded q quiz1) /\
       current_question (set_loaded q quiz1) = Some q /\
       used_indices (set_loaded q quiz1)
         = (used_indices quiz ++ [row_name q])%list).
Proof.
  intros df_subj quiz1 target weak unused narrow wide eligible.
  pose proof (retarget_frame r_choice quiz)
    as (_ & Hm & _ & Hw & Hu & Hc & _).
  cbn zeta in Hm, Hw, Hu, Hc.
  change (snd (retarget r_choice quiz)) with quiz1 in Hm, Hw, Hu, Hc.
  assert (forall q, In q (pool df_subj target quiz1) <-> eligible q) as Hpool.
  { intros q. rewrite pool_In, Hm, Hw, Hu.
    unfold eligible, wide, narrow, unused, weak.
    split; (intros [H | [Hn H]];
            [left; tauto
            | right; split; [intros q' Hq'; apply (Hn q'); tauto | tauto]]). }
  split; [apply retarget_cluster |].
  destruct (load_next_question_cases df_all r_choice r_sample quiz)
    as [[Hnil Hload] | [q [Hin Hload]]];
    change (snd (retarget r_choice quiz)) with quiz1 in Hload;
    rewrite Hload.
  - split.
    + intros _. auto.
    + intros [q Hq]. apply Hpool in Hq.
      change (pool df_subj target quiz1 = []) in Hnil.
      rewrite Hnil in Hq. destruct Hq.
  - split.
    + intros Hnone. exfalso. apply (Hnone q). now apply Hpool.
    + intros _. exists q. split; [now apply Hpool |].
      cbn [current_question used_indices set_loaded]. rewrite Hu. auto.
Qed.

(** C6: on a session state in the sense of the pages, where weak_only
    mode comes with a non-empty candidate list.  The target cluster is
    the session's cluster, re-drawn among the candidates in weak_only
    mode when it is not one of them.  When no unused question of the
    subject has the target cluster, the frame is widened: in weak_only
    mode to the unused questions of the subject whose cluster is a
    candidate, otherwise to all unused questions of the subject.  When
    the widened frame is empty too the call returns [False] and sets no
    question; otherwise it returns [True], a question of the (possibly
    widened) frame is current and its label is appended to the used
    list. *)
Theorem load_next_question_widens_or_fails (df_all : list Question)
    (r_choice r_sample : nat) (quiz : Quiz) :
  (mode quiz = "weak_only" -> weak_only_list quiz <> []) ->
  let df_subj := subject_frame df_all (subject quiz) in
  let quiz1 := snd (retarget r_choice quiz) in
  let target := cluster quiz1 in
  let unused q := In q df_subj /\ ~ In (row_name q) (used_indices quiz) in
  let narrow q := unused q /\ row_cluster q = target in
  let wide q :=
    unused q /\
    (mode quiz = "weak_only" -> In (row_cluster q) (weak_only_list quiz)) in
  let eligible q := narrow q \/ ((forall q', ~ narrow q') /\ wide q) in
  (mode quiz <> "weak_only" -> target = cluster quiz) /\
  (mode quiz = "weak_only" ->
     In target (weak_only_list quiz) /\
     (In (cluster quiz) (weak_only_list quiz) -> target = cluster quiz)) /\
  ((forall q, ~ eligible q) ->
     load_next_question df_all r_choice r_sample quiz = (false, quiz1) /\
     current_question quiz1 = current_question quiz /\
     used_indices quiz1 = used_indices quiz) /\
  ((exists q, eligible q) ->
     exists q,
       eligible q /\
       load_next_question df_all r_choice r_sample quiz
         = (true, set_loaded q quiz1) /\
       current_question (set_loaded q quiz1) = Some q /\
       used_indices (set_loaded q quiz1)
         = (used_indices quiz ++ [row_name q])%list).
Proof.
  intros Hwf df_subj quiz1 target unused narrow wide eligible.
  destruct (load_next_question_by_pool df_all r_choice r_sample quiz)
    as (Htarget & Hnone & Hsome).
  change (snd (retarget r_choice quiz)) with quiz1 in Htarget, Hnone, Hsome.
  change (cluster quiz1) with target in Htarget, Hnone, Hsome.
  change (subject_frame df_all (subject quiz)) with df_subj in Hnone, Hsome.
  assert (forall q,
            eligible q <->
            ((In q df_subj /\ ~ In (row_name q) (used_indices quiz)) /\
             row_cluster q = target) \/
            ((forall q',
                ~ ((In q' df_subj /\ ~ In (row_name q') (used_indices quiz)) /\
                   row_cluster q' = target)) /\
             (In q df_subj /\ ~ In (row_name q) (used_indices quiz)) /\
             (mode quiz = "weak_only" /\ weak_only_list quiz <> [] ->
              In (row_cluster q) (weak_only_list quiz)))) as Hel.
  { intros q. unfold eligible, wide, narrow, unused.
    split; (intros [H | (Hn & Hu & Hw)]; [now left | right]);
      (split; [exact Hn |]); (split; [exact Hu |]).
    - intros [Hm _]. now apply Hw.
    - intros Hm. apply Hw. split; [exact Hm | now apply Hwf]. }
  split; [| split; [| split]].
  - intros Hm. rewrite Htarget.
    assert (weak_mode quiz = false) as ->; [| reflexivity].
    destruct (weak_mode quiz) eqn:W; [| reflexivity].
    apply weak_mode_true in W as [W _]. contradiction.
  - intros Hm. rewrite Htarget.
    assert (weak_mode quiz = true) as ->
      by (apply weak_mode_true; split; [exact Hm | now apply Hwf]).
    cbn [andb].
    destruct (Zmem (cluster quiz) (weak_only_list quiz)) eqn:M; cbn [negb].
    + apply Zmem_In in M. auto.
    + split; [apply random_choice_In; now apply Hwf |].
      intros H. apply Zmem_In in H. congruence.
  - intros Hno. apply Hnone. intros q Hq. apply (Hno q). now apply Hel.
  - intros [q Hq]. destruct Hsome as (q' & Hq' & Hrest).
    + exists q. now apply Hel.
    + exists q'. split; [now apply Hel | exact Hrest].
Qed.

(** A weak_only round in English with candidates 4 and 5 on
    [demo_bank]: no English question has cluster 4, the frame is
    widened to the candidate clusters and the question of cluster 5 is
    loaded. *)
Lemma load_next_question_widens_or_fails_witness :
  let quiz := reset_quiz_state "English" 5 "weak_only" (Some [4; 5]) true in
  exists q,
    row_cluster q = 5 /\
    load_next_question demo_bank 0 0 quiz
      = (true, set_loaded q (snd (retarget 0 quiz))) /\
    current_question (set_loaded q (snd (retarget 0 quiz))) = Some q /\
    used_indices (set_loaded q (snd (retarget 0 quiz)))
      = (used_indices quiz ++ [row_name q])%list.
Proof.
  intro quiz.
  destruct (load_next_question_widens_or_fails demo_bank 0 0 quiz)
    as (_ & _ & _ & Hsome); [discriminate |].
  destruct Hsome as (q & Hq & Hload & Hcur & Hused).
  - exists (1%nat, mkQuestion "English" 5 "Opposite of hot?"
                     "cold" "warm" "dry" "tall" "a").
    right. split.
    + intros q' [[Hin _] Hc].
      destruct Hin as [<- | [<- | []]]; discriminate Hc.
    + split; [split; [cbn; auto | cbn; tauto] |].
      intros _. cbn. auto.
  - exists q. split; [| auto].
    destruct Hq as [[[Hin _] Hc] | [_ [[Hin _] Hw]]].
    + exfalso. destruct Hin as [<- | [<- | []]]; vm_compute in Hc;
        discriminate Hc.
    + specialize (Hw eq_refl).
      destruct Hin as [<- | [<- | []]]; [| reflexivity].
      exfalso. destruct Hw as [E | [E | []]]; vm_compute in E; discriminate E.
Defined.

(** ** The candidate list of weak_only mode *)

Lemma zero_tally_keys l :
  forall d k,
    In k (dict_keys (fold_left (fun d c => dict_set Z.eqb d c 0) l d)) ->
    In k (dict_keys d) \/ In k l.
Proof.
  induction l as [| c l IH]; intros d k H; cbn in *; [now left |].
  apply IH in H as [H | H]; [| tauto].
  apply dict_keys_set in H as [-> | H]; tauto.
Qed.

Lemma apply_op_weak_clusters df_all quiz op k :
  In k (dict_keys (weak_clusters (apply_op df_all quiz op))) ->
  k = cluster quiz \/ In k (dict_keys (weak_clusters quiz)).
Proof.
  destruct op as [rc rs | choice_key | |]; cbn [apply_op].
  - pose proof (retarget_frame rc quiz) as (_ & _ & _ & _ & _ & _ & Hw & _).
    cbn zeta in Hw.
    destruct (load_next_question_cases df_all rc rs quiz)
      as [[_ ->] | [q [_ ->]]]; cbn [snd weak_clusters set_loaded];
      rewrite Hw; auto.
  - unfold submit_answer. destruct (current_question quiz) as [q |]; [| auto].
    destruct (choice_key =? correct_key q)%string;
      cbn [weak_clusters set_correct set_wrong]; [auto |].
    intros H. now apply dict_keys_set in H.
  - unfold next_question. cbn.
    destruct (total_questions quiz <=? question_index quiz + 1); cbn; auto.
  - cbn. auto.
Qed.

Lemma load_next_question_weak_cluster df_all r_choice r_sample quiz :
  mode quiz = "weak_only" ->
  weak_only_list quiz <> [] ->
  In (cluster (snd (load_next_question df_all r_choice r_sample quiz)))
     (weak_only_list quiz) /\
  (In (cluster quiz) (weak_only_list quiz) ->
   cluster (snd (load_next_question df_all r_choice r_sample quiz))
     = cluster quiz).
Proof.
  intros Hm Hl.
  assert (weak_mode quiz = true) as W by now apply weak_mode_true.
  pose proof (retarget_cluster r_choice quiz) as Hc. rewrite W in Hc.
  assert (cluster (snd (load_next_question df_all r_choice r_sample quiz))
          = cluster (snd (retarget r_choice quiz))) as ->.
  { destruct (load_next_question_cases df_all r_choice r_sample quiz)
      as [[_ ->] | [q [_ ->]]]; reflexivity. }
  rewrite Hc. cbn [andb].
  destruct (Zmem (cluster quiz) (weak_only_list quiz)) eqn:M; cbn [negb].
  - apply Zmem_In in M. auto.
  - split; [now apply random_choice_In |].
    intros H. apply Zmem_In in H. congruence.
Qed.

Lemma apply_op_weak_only_invariant df_all wl quiz op :
  wl <> [] ->
  weak_only_invariant wl quiz ->
  weak_only_invariant wl (apply_op df_all quiz op).
Proof.
  intros Hne (Hm & Hl & Hc & Hk).
  destruct (apply_op_config df_all quiz op) as (Hm' & _ & Hl').
  unfold weak_only_invariant. rewrite Hm', Hl'.
  split; [assumption |]. split; [assumption |]. split.
  - destruct op as [rc rs | choice_key | |]; cbn [apply_op].
    + rewrite <- Hl. apply load_next_question_weak_cluster; congruence.
    + unfold submit_answer. destruct (current_question quiz) as [q |];
        [| assumption].
      destruct (choice_key =? correct_key q)%string; cbn; now rewrite Hm.
    + unfold next_question. cbn.
      destruct (total_questions quiz <=? question_index quiz + 1); cbn;
        assumption.
    + cbn. assumption.
  - intros k H. apply apply_op_weak_clusters in H as [-> | H]; auto.
Qed.

Lemma trace_weak_only_invariant df_all wl ops :
  wl <> [] ->
  forall quiz,
    weak_only_invariant wl quiz ->
    Forall (weak_only_invariant wl) (trace df_all ops quiz).
Proof.
  intros Hne. induction ops as [| op ops IH]; intros quiz Hinv; cbn [trace].
  - constructor; [assumption | constructor].
  - constructor; [assumption |].
    apply IH. now apply apply_op_weak_only_invariant.
Qed.

(** C10: a weak_only session with a non-empty candidate list starts at
    the first candidate; a selection leaves a member cluster alone and
    replaces a non-member by a member; a submission does not move the
    cluster and adds no tally key other than the current cluster; so in
    every state of the session the cluster and all tally keys are
    candidates. *)
Theorem weak_only_cluster_in_candidates (df_all : list Question)
    (subj : string) (total_q : Z) (c : Z) (cands : list Z) (timer : bool)
    (ops : list Op) :
  let wl := c :: cands in
  let quiz0 := reset_quiz_state subj total_q "weak_only" (Some wl) timer in
  cluster quiz0 = c /\
  (forall quiz r_choice r_sample,
     mode quiz = "weak_only" -> weak_only_list quiz <> [] ->
     let quiz' := snd (load_next_question df_all r_choice r_sample quiz) in
     In (cluster quiz') (weak_only_list quiz) /\
     (In (cluster quiz) (weak_only_list quiz) ->
      cluster quiz' = cluster quiz)) /\
  (forall quiz choice_key quiz',
     mode quiz = "weak_only" ->
     submit_answer choice_key quiz = Done quiz' ->
     cluster quiz' = cluster quiz /\
     (forall k, In k (dict_keys (weak_clusters quiz')) ->
                k = cluster quiz \/ In k (dict_keys (weak_clusters quiz)))) /\
  Forall (weak_only_invariant wl) (trace df_all ops quiz0).
Proof.
  intros wl quiz0. split; [reflexivity |]. split; [| split].
  - intros quiz rc rs Hm Hl. now apply load_next_question_weak_cluster.
  - intros quiz choice_key quiz' Hm Hs. split.
    + unfold submit_answer in Hs.
      destruct (current_question quiz) as [q |]; [| discriminate].
      destruct (choice_key =? correct_key q)%string;
        injection Hs as <-; cbn; now rewrite Hm.
    + intros k Hk.
      apply (apply_op_weak_clusters df_all quiz (OpSubmit choice_key)).
      cbn [apply_op]. now rewrite Hs.
  - apply trace_weak_only_invariant; [discriminate |].
    unfold weak_only_invariant.
    split; [reflexivity |]. split; [reflexivity |]. split; [now left |].
    intros k Hk. cbn [weak_clusters quiz0 reset_quiz_state String.eqb] in Hk.
    apply zero_tally_keys in Hk as [[] | Hk]. exact Hk.
Qed.

(** A stray cluster 9 is replaced by a candidate at the next selection,
    and a short weak_only round keeps the invariant. *)
Lemma weak_only_cluster_in_candidates_witness :
  let quiz0 := reset_quiz_state "English" 5 "weak_only" (Some [5; 3]) true in
  let stray := set_cluster 9 quiz0 in
  (In (cluster (snd (load_next_question demo_bank 1 0 stray))) [5; 3] /\
   (In 9 [5; 3] ->
    cluster (snd (load_next_question demo_bank 1 0 stray)) = 9)) /\
  Forall (weak_only_invariant [5; 3])
    (trace demo_bank [OpLoad 0 0; OpSubmit "B"; OpNext] quiz0).
Proof.
  intros quiz0 stray.
  destruct (weak_only_cluster_in_candidates demo_bank "English" 5 5 [3] true
              [OpLoad 0 0; OpSubmit "B"; OpNext]) as (_ & Hload & _ & Htrace).
  split; [| exact Htrace].
  apply (Hload stray 1%nat 0%nat); [reflexivity | discriminate].
Defined.

(** * Further properties of the operations *)

(** ** What a selection loads *)

Lemma subject_frame_In df_all subj q :
  In q (subject_frame df_all subj) ->
  In (snd q) df_all /\ Subject (snd q) = subj.
Proof.
  unfold subject_frame, reset_index. destruct q as [n x]. intros H.
  apply in_combine_r in H. apply filter_In in H as [Hin E].
  apply String.eqb_eq in E. auto.
Qed.

(** The row a successful selection makes current. *)
Lemma load_next_question_loaded df_all r_choice r_sample quiz quiz' :
  load_next_question df_all r_choice r_sample quiz = (true, quiz') ->
  exists q,
    current_question quiz' = Some q /\
    quiz' = set_loaded q (snd (retarget r_choice quiz)) /\
    In q (pool (subject_frame df_all (subject quiz))
            (cluster (snd (retarget r_choice quiz)))
            (snd (retarget r_choice quiz))).
Proof.
  intros H.
  destruct (load_next_question_cases df_all r_choice r_sample quiz)
    as [[_ E] | [q [Hin E]]]; rewrite E in H; [discriminate |].
  injection H as <-. exists q. auto.
Qed.

(** X1: A question that is loaded is a line of the table, of the subject
    of the session. *)
Theorem load_next_question_same_subject (df_all : list Question)
    (r_choice r_sample : nat) (quiz quiz' : Quiz) :
  load_next_question df_all r_choice r_sample quiz = (true, quiz') ->
  exists q,
    current_question quiz' = Some q /\
    In (snd q) df_all /\
    Subject (snd q) = subject quiz.
Proof.
  intros H. apply load_next_question_loaded in H as (q & Hq & _ & Hin).
  exists q. split; [assumption |].
  apply pool_unused in Hin as [Hin _].
  now apply subject_frame_In in Hin.
Qed.

Lemma load_next_question_same_subject_witness :
  exists q,
    current_question demo_maths = Some q /\
    In (snd q) demo_bank /\
    Subject (snd q) = "Mathematics".
Proof.
  apply (load_next_question_same_subject demo_bank 0 0
           (reset_quiz_state "Mathematics" 3 "normal" None true) demo_maths).
  reflexivity.
Defined.

(** X2: In weak_only mode with candidates, a question that is loaded
    belongs to a candidate cluster, whether it comes from the target
    cluster or from the widened frame. *)
Theorem load_next_question_weak_only_candidate (df_all : list Question)
    (r_choice r_sample : nat) (quiz quiz' : Quiz) :
  mode quiz = "weak_only" ->
  weak_only_list quiz <> [] ->
  load_next_question df_all r_choice r_sample quiz = (true, quiz') ->
  exists q,
    current_question quiz' = Some q /\
    In (row_cluster q) (weak_only_list quiz).
Proof.
  intros Hm Hl H.
  destruct (load_next_question_weak_cluster df_all r_choice r_sample quiz
              Hm Hl) as [Hc _].
  pose proof (retarget_frame r_choice quiz) as (_ & Hm' & _ & Hl' & _).
  cbn zeta in Hm', Hl'.
  rewrite H in Hc. cbn [snd] in Hc.
  apply load_next_question_loaded in H as (q & Hq & -> & Hin).
  exists q. split; [assumption |].
  cbn [cluster set_loaded] in Hc.
  apply pool_In in Hin as [(_ & _ & E) | (_ & _ & _ & Hw)].
  - now rewrite E.
  - rewrite <- Hl'. apply Hw. rewrite Hm', Hl'. auto.
Qed.

Lemma load_next_question_weak_only_candidate_witness :
  exists q,
    current_question
      (snd (load_next_question demo_bank 0 0
              (reset_quiz_state "English" 5 "weak_only" (Some [4; 5]) true)))
      = Some q /\
    In (row_cluster q) [4; 5].
Proof.
  apply (load_next_question_weak_only_candidate demo_bank 0 0
           (reset_quiz_state "English" 5 "weak_only" (Some [4; 5]) true)).
  - reflexivity.
  - discriminate.
  - reflexivity.
Defined.

(** X3: A selection fails exactly when no question is left: every line of
    the subject is used, or, in weak_only mode with candidates, every
    line of the subject in a candidate cluster is. *)
Theorem load_next_question_fails_iff_exhausted (df_all : list Question)
    (r_choice r_sample : nat) (quiz : Quiz) :
  fst (load_next_question df_all r_choice r_sample quiz) = false <->
  (forall q,
     In q (subject_frame df_all (subject quiz)) ->
     (mode quiz = "weak_only" -> weak_only_list quiz <> [] ->
      In (row_cluster q) (weak_only_list quiz)) ->
     In (row_name q) (used_indices quiz)).
Proof.
  pose proof (retarget_frame r_choice quiz)
    as (_ & Hm & Hs & Hl & Hu & _). cbn zeta in Hm, Hs, Hl, Hu.
  set (quiz1 := snd (retarget r_choice quiz)) in *.
  set (df_subj := subject_frame df_all (subject quiz)).
  assert (forall q, In q (pool df_subj (cluster quiz1) quiz1) ->
            In q df_subj /\ ~ In (row_name q) (used_indices quiz) /\
            (mode quiz = "weak_only" -> weak_only_list quiz <> [] ->
             In (row_cluster q) (weak_only_list quiz))) as Hpool.
  { intros q Hq. apply pool_In in Hq. rewrite Hm, Hl, Hu in Hq.
    destruct Hq as [(H1 & H2 & E) | (_ & H1 & H2 & Hw)];
      (split; [assumption |]); (split; [assumption |]); [| tauto].
    intros Hmode Hne. rewrite E, <- Hl. subst quiz1.
    destruct (load_next_question_weak_cluster df_all r_choice r_sample quiz
                Hmode Hne) as [Hc _].
    destruct (load_next_question_cases df_all r_choice r_sample quiz)
      as [[_ E'] | [q' [_ E']]]; rewrite E' in Hc; cbn in Hc;
      now rewrite Hl. }
  assert (forall q, In q df_subj ->
            ~ In (row_name q) (used_indices quiz) ->
            (mode quiz = "weak_only" -> weak_only_list quiz <> [] ->
             In (row_cluster q) (weak_only_list quiz)) ->
            pool df_subj (cluster quiz1) quiz1 <> []) as Hsome.
  { intros q H1 H2 Hw Hnil.
    assert (In q (pool df_subj (cluster quiz1) quiz1)) as Hq;
      [| rewrite Hnil in Hq; destruct Hq].
    destruct (drop (used_indices quiz1) (cluster_eq (cluster quiz1) df_subj))
      as [| a l] eqn:E.
    - apply pool_In. right. rewrite Hm, Hl, Hu. split; [| tauto].
      intros q' (Q1 & Q2 & Q3).
      assert (In q' (drop (used_indices quiz1)
                       (cluster_eq (cluster quiz1) df_subj))) as Hq'
        by (rewrite drop_In, cluster_eq_In, Hu; tauto).
      rewrite E in Hq'. destruct Hq'.
    - exfalso. unfold pool in Hnil. rewrite E in Hnil. discriminate. }
  destruct (load_next_question_cases df_all r_choice r_sample quiz)
    as [[Hnil ->] | [q [Hin ->]]]; cbn [fst].
  - change (pool df_subj (cluster quiz1) quiz1 = []) in Hnil.
    split; [intros _ | reflexivity].
    intros q H1 Hw.
    destruct (in_dec Nat.eq_dec (row_name q) (used_indices quiz))
      as [Hin | Hout]; [assumption |].
    exfalso. exact (Hsome q H1 Hout Hw Hnil).
  - change (In q (pool df_subj (cluster quiz1) quiz1)) in Hin.
    split; [discriminate |]. intros Hall. exfalso.
    destruct (Hpool q Hin) as (H1 & H2 & Hw). apply H2. now apply Hall.
Qed.

(** ** How many questions a session can use *)

Lemma apply_op_used_incl df_all quiz op :
  incl (used_indices quiz)
       (map row_name (subject_frame df_all (subject quiz))) ->
  incl (used_indices (apply_op df_all quiz op))
       (map row_name (subject_frame df_all (subject quiz))).
Proof.
  intros Hincl.
  destruct op as [rc rs | choice_key | |]; cbn [apply_op].
  - destruct (load_next_question_fresh df_all rc rs quiz)
      as [(_ & -> & _) | (q & _ & _ & Hin & _ & ->)]; [assumption |].
    apply incl_app; [assumption |].
    intros a [<- | []]. now apply in_map.
  - unfold submit_answer. destruct (current_question quiz) as [q |];
      [| assumption].
    destruct (choice_key =? correct_key q)%string; assumption.
  - unfold next_question. cbn.
    destruct (total_questions quiz <=? question_index quiz + 1); assumption.
  - assumption.
Qed.

Lemma run_used_incl df_all ops :
  forall quiz,
    incl (used_indices quiz)
         (map row_name (subject_frame df_all (subject quiz))) ->
    incl (used_indices (run df_all ops quiz))
         (map row_name (subject_frame df_all (subject quiz))).
Proof.
  induction ops as [| op ops IH]; intros quiz Hincl; [assumption |].
  change (run df_all (op :: ops) quiz)
    with (run df_all ops (apply_op df_all quiz op)).
  destruct (apply_op_config df_all quiz op) as (_ & Hs & _).
  rewrite <- Hs. apply IH. rewrite Hs. now apply apply_op_used_incl.
Qed.

(** X4: A session never loads more questions than the table has lines of
    its subject, whatever the operations and the draws. *)
Theorem session_selects_at_most_the_subject (df_all : list Question)
    (subj : string) (total_q : Z) (mode_ : string) (wl : option (list Z))
    (timer : bool) (ops : list Op) :
  let quiz0 := reset_quiz_state subj total_q mode_ wl timer in
  (List.length (selected df_all ops quiz0)
   <= List.length (filter (fun q => Subject q =? subj)%string df_all))%nat.
Proof.
  intros quiz0.
  assert (NoDup (used_indices quiz0)) as ND0 by constructor.
  destruct (run_used df_all ops quiz0 ND0) as [Hu ND].
  change (used_indices quiz0) with (@nil nat) in Hu. cbn [app] in Hu.
  rewrite <- Hu.
  assert (incl (used_indices (run df_all ops quiz0))
               (map row_name (subject_frame df_all subj))) as Hincl.
  { apply (run_used_incl df_all ops quiz0). intros a []. }
  apply NoDup_incl_length in Hincl; [| assumption].
  rewrite length_map in Hincl.
  unfold subject_frame, reset_index in Hincl.
  set (rows := filter (fun q => Subject q =? subj)%string df_all) in *.
  change (List.length (used_indices (run df_all ops quiz0))
          <= List.length (combine (seq 0 (List.length rows)) rows))%nat
    in Hincl.
  rewrite length_combine, length_seq, Nat.min_id in Hincl. exact Hincl.
Qed.

(** ** Counting submissions *)

Lemma dict_set_increment_total (d : list (Z * Z)) k :
  fold_right Z.add 0
    (map snd (dict_set Z.eqb d k (dict_get_default Z.eqb d k 0 + 1)))
  = fold_right Z.add 0 (map snd d) + 1.
Proof.
  unfold dict_get_default.
  induction d as [| [k' v'] d IH]; cbn.
  - lia.
  - destruct (Z.eqb_spec k' k) as [-> | N]; cbn; lia.
Qed.

(** The effect of one operation on the score and on the misses. *)
Lemma apply_op_counts df_all quiz op :
  score (apply_op df_all quiz op) + tally_total (apply_op df_all quiz op)
  = score quiz + tally_total quiz + submissions df_all [op] quiz /\
  score quiz <= score (apply_op df_all quiz op) /\
  tally_total quiz <= tally_total (apply_op df_all quiz op).
Proof.
  unfold tally_total.
  destruct op as [rc rs | choice_key | |]; cbn [apply_op submissions].
  - pose proof (retarget_frame rc quiz)
      as (_ & _ & _ & _ & _ & _ & Hw & Hsc & _). cbn zeta in Hw, Hsc.
    destruct (load_next_question_cases df_all rc rs quiz)
      as [[_ ->] | [q [_ ->]]]; cbn [snd score weak_clusters set_loaded];
      rewrite Hw, Hsc; lia.
  - unfold submit_answer. destruct (current_question quiz) as [q |];
      [| lia].
    destruct (choice_key =? correct_key q)%string;
      cbn [score weak_clusters set_correct set_wrong];
      rewrite ?dict_set_increment_total; lia.
  - unfold next_question. cbn.
    destruct (total_questions quiz <=? question_index quiz + 1); cbn; lia.
  - cbn. lia.
Qed.

(** X5: Every submission made on a loaded question is counted once, as a
    point of the score or as a miss of the tally: over any session the
    two together grow by the number of such submissions, and neither
    ever goes down. *)
Theorem submissions_are_counted_once (df_all : list Question)
    (ops : list Op) (quiz : Quiz) :
  score (run df_all ops quiz) + tally_total (run df_all ops quiz)
  = score quiz + tally_total quiz + submissions df_all ops quiz /\
  score quiz <= score (run df_all ops quiz) /\
  tally_total quiz <= tally_total (run df_all ops quiz).
Proof.
  revert quiz. induction ops as [| op ops IH]; intros quiz.
  - cbn. lia.
  - change (run df_all (op :: ops) quiz)
      with (run df_all ops (apply_op df_all quiz op)).
    destruct (IH (apply_op df_all quiz op)) as (E & H1 & H2).
    destruct (apply_op_counts df_all quiz op) as (E' & H1' & H2').
    cbn [submissions] in *. lia.
Qed.

(** X6: A submission does not use up the question: the same question stays
    current, and submitting the right key [n] times adds [n] to the
    score. *)
Theorem repeated_submission_counts_again (df_all : list Question)
    (quiz : Quiz) (q : Row) (n : nat) :
  current_question quiz = Some q ->
  let quiz' := run df_all (repeat (OpSubmit (correct_key q)) n) quiz in
  current_question quiz' = Some q /\
  score quiz' = score quiz + Z.of_nat n.
Proof.
  revert quiz. induction n as [| n IH]; intros quiz Hq; cbn zeta.
  - cbn. split; [assumption | lia].
  - cbn [repeat].
    change (run df_all (OpSubmit (correct_key q) :: ?l) quiz)
      with (run df_all l (apply_op df_all quiz (OpSubmit (correct_key q)))).
    cbn [apply_op]. rewrite (submit_answer_loaded _ _ _ Hq).
    rewrite String.eqb_refl.
    destruct (IH (set_correct quiz) Hq) as [Hc Hs].
    split; [exact Hc |]. rewrite Hs. cbn [score set_correct]. lia.
Qed.

Lemma repeated_submission_counts_again_witness :
  let quiz' := run demo_bank (repeat (OpSubmit "C") 4) demo_english in
  score quiz' = 4 /\ total_questions quiz' = 5 /\ question_index quiz' = 0.
Proof.
  intro quiz'.
  destruct (repeated_submission_counts_again demo_bank demo_english
              (0%nat, mkQuestion "English" 3 "Pick the noun."
                        "run" "blue" "table" "slowly" "C") 4 eq_refl)
    as [_ Hs].
  split; [exact Hs | split; reflexivity].
Defined.

(** ** The cluster range of normal mode *)

Lemma steps_of_one_cons a l :
  (forall b, hd_error l = Some b -> Z.abs (b - a) <= 1) ->
  steps_of_one l -> steps_of_one (a :: l).
Proof. destruct l as [| b l]; cbn; auto. Qed.

Lemma normal_in_range df_all ops :
  forall quiz,
    mode quiz = "normal" ->
    MIN_CLUSTER <= cluster quiz ->
    (forall L,
       dict_get String.eqb CLUSTER_LIMITS (subject quiz) = Some L ->
       cluster quiz <= L) ->
    Forall (fun c => MIN_CLUSTER <= c) (map cluster (trace df_all ops quiz)) /\
    (forall L,
       dict_get String.eqb CLUSTER_LIMITS (subject quiz) = Some L ->
       Forall (fun c => c <= L) (map cluster (trace df_all ops quiz))) /\
    steps_of_one (map cluster (trace df_all ops quiz)).
Proof.
  induction ops as [| op ops IH]; intros quiz Hm Hlo Hhi.
  - cbn. repeat split; try (intros; repeat constructor; auto).
  - destruct (apply_op_config df_all quiz op) as (Hm' & Hs' & _).
    rewrite Hm in Hm'.
    pose proof (apply_op_cluster_normal df_all quiz op Hm) as Hc.
    assert (MIN_CLUSTER <= cluster (apply_op df_all quiz op) /\
            (forall L,
               dict_get String.eqb CLUSTER_LIMITS (subject quiz) = Some L ->
               cluster (apply_op df_all quiz op) <= L) /\
            Z.abs (cluster (apply_op df_all quiz op) - cluster quiz) <= 1)
      as (Hlo' & Hhi' & Hstep).
    { rewrite Hc. unfold MIN_CLUSTER in *.
      destruct op as [rc rs | choice_key | |];
        try (split; [lia | split; [exact Hhi | lia]]).
      destruct (current_question quiz) as [q |];
        [| split; [lia | split; [exact Hhi | lia]]].
      destruct (choice_key =? correct_key q)%string.
      - unfold dict_get_default.
        destruct (dict_get String.eqb CLUSTER_LIMITS (subject quiz))
          as [L0 |].
        + specialize (Hhi L0 eq_refl).
          split; [lia | split; [intros L [= ->]; lia | lia]].
        + split; [lia | split; [discriminate | lia]].
      - split; [lia | split; [| lia]].
        intros L HL. specialize (Hhi L HL). lia. }
    rewrite <- Hs' in Hhi'.
    destruct (IH _ Hm' Hlo' Hhi') as (IH1 & IH2 & IH3).
    cbn [trace map]. split; [| split].
    + constructor; assumption.
    + intros L HL. constructor; [now apply Hhi |].
      apply IH2. now rewrite Hs'.
    + apply steps_of_one_cons; [| exact IH3].
      rewrite trace_hd. now intros b [= <-].
Qed.

(** X7: In a normal session, whatever the answers, the cluster stays at or
    above [MIN_CLUSTER] and at or below the limit of the subject (when
    it has one), and moves by at most one from a state to the next. *)
Theorem normal_mode_cluster_in_range (df_all : list Question)
    (subj : string) (total_q : Z) (wl : option (list Z)) (timer : bool)
    (ops : list Op) :
  let quiz0 := reset_quiz_state subj total_q "normal" wl timer in
  let clusters := map cluster (trace df_all ops quiz0) in
  Forall (fun c => MIN_CLUSTER <= c) clusters /\
  (forall L,
     dict_get String.eqb CLUSTER_LIMITS subj = Some L ->
     Forall (fun c => c <= L) clusters) /\
  steps_of_one clusters.
Proof.
  intros quiz0 clusters.
  assert (cluster quiz0 = mid subj) as Hc0 by reflexivity.
  apply (normal_in_range df_all ops quiz0); [reflexivity | |].
  - rewrite Hc0. unfold MIN_CLUSTER.
    destruct (mid_cases subj) as [[_ ->] | [[_ ->] | [_ ->]]]; lia.
  - intros L HL. rewrite Hc0. cbn [subject quiz0 reset_quiz_state] in HL.
    destruct (mid_cases subj) as [[-> ->] | [[-> ->] | [E _]]];
      [injection HL as <-; lia | injection HL as <-; lia | congruence].
Qed.

(** ** The shape of the tally *)

Lemma dict_set_NoDup (d : list (Z * Z)) k v :
  NoDup (dict_keys d) -> NoDup (dict_keys (dict_set Z.eqb d k v)).
Proof.
  unfold dict_keys. induction d as [| [k' v'] d IH]; cbn; intros ND.
  - repeat constructor. intros [].
  - inversion ND as [| ? ? Hnot ND']; subst.
    destruct (Z.eqb_spec k' k) as [-> | N]; cbn; [now constructor |].
    constructor; [| now apply IH].
    intros Hin. apply (dict_keys_set d k v k') in Hin as [E | Hin];
      [congruence | contradiction].
Qed.

Lemma dict_set_Forall (P : Z -> Prop) (d : list (Z * Z)) k v :
  P v ->
  Forall (fun cm => P (snd cm)) d ->
  Forall (fun cm => P (snd cm)) (dict_set Z.eqb d k v).
Proof.
  intros Hv. induction d as [| [k' v'] d IH]; cbn; intros HF.
  - repeat constructor. exact Hv.
  - inversion HF as [| ? ? Hh Ht]; subst.
    destruct (Z.eqb k' k); constructor; auto.
Qed.

Lemma dict_get_default_Forall (P : Z -> Prop) (d : list (Z * Z)) k dflt :
  P dflt ->
  Forall (fun cm => P (snd cm)) d ->
  P (dict_get_default Z.eqb d k dflt).
Proof.
  intros Hd. unfold dict_get_default.
  induction d as [| [k' v'] d IH]; cbn; intros HF; [assumption |].
  inversion HF as [| ? ? Hh Ht]; subst.
  destruct (Z.eqb k' k); auto.
Qed.

Lemma zero_tally_shape l :
  forall d,
    NoDup (dict_keys d) -> Forall (fun cm => snd cm = 0) d ->
    NoDup (dict_keys (fold_left (fun d c => dict_set Z.eqb d c 0) l d)) /\
    Forall (fun cm => snd cm = 0)
      (fold_left (fun d c => dict_set Z.eqb d c 0) l d).
Proof.
  induction l as [| c l IH]; intros d ND HF; cbn; [auto |].
  apply IH; [now apply dict_set_NoDup |].
  now apply (dict_set_Forall (fun v => v = 0)).
Qed.

(** An operation changes the tally only by a miss, booked on the
    cluster of the session. *)
Lemma apply_op_weak_clusters_cases df_all quiz op :
  weak_clusters (apply_op df_all quiz op) = weak_clusters quiz \/
  weak_clusters (apply_op df_all quiz op)
    = dict_set Z.eqb (weak_clusters quiz) (cluster quiz)
        (dict_get_default Z.eqb (weak_clusters quiz) (cluster quiz) 0 + 1).
Proof.
  destruct op as [rc rs | choice_key | |]; cbn [apply_op].
  - pose proof (retarget_frame rc quiz) as (_ & _ & _ & _ & _ & _ & Hw & _).
    cbn zeta in Hw.
    destruct (load_next_question_cases df_all rc rs quiz)
      as [[_ ->] | [q [_ ->]]]; cbn [snd weak_clusters set_loaded]; auto.
  - unfold submit_answer. destruct (current_question quiz) as [q |];
      [| auto].
    destruct (choice_key =? correct_key q)%string; cbn; auto.
  - unfold next_question. cbn.
    destruct (total_questions quiz <=? question_index quiz + 1); cbn; auto.
  - cbn. auto.
Qed.

Lemma run_tally_shape (lo : Z) df_all ops :
  0 <= lo <= 1 ->
  forall quiz,
    NoDup (dict_keys (weak_clusters quiz)) ->
    Forall (fun cm => lo <= snd cm) (weak_clusters quiz) ->
    NoDup (dict_keys (weak_clusters (run df_all ops quiz))) /\
    Forall (fun cm => lo <= snd cm) (weak_clusters (run df_all ops quiz)).
Proof.
  intros Hlo. induction ops as [| op ops IH]; intros quiz ND HF; [auto |].
  change (run df_all (op :: ops) quiz)
    with (run df_all ops (apply_op df_all quiz op)).
  apply IH;
    destruct (apply_op_weak_clusters_cases df_all quiz op) as [-> | ->];
    try assumption.
  - now apply dict_set_NoDup.
  - apply (dict_set_Forall (fun v => lo <= v)); [| assumption].
    assert (0 <= dict_get_default Z.eqb (weak_clusters quiz) (cluster quiz) 0).
    { apply (dict_get_default_Forall (fun v => 0 <= v)); [lia |].
      eapply Forall_impl; [| exact HF]. cbn. intros; lia. }
    lia.
Qed.

Lemma weak_list_of_positive quiz :
  Forall (fun cm => 1 <= snd cm) (weak_clusters quiz) ->
  weak_list_of quiz = dict_keys (weak_clusters quiz).
Proof.
  unfold weak_list_of, dict_keys.
  induction (weak_clusters quiz) as [| [c m] d IH]; intros HF;
    [reflexivity |].
  inversion HF as [| ? ? Hh Ht]; subst. cbn in *.
  destruct (Z.ltb_spec 0 m); [| lia]. cbn. f_equal. now apply IH.
Qed.

Lemma session_tally_ok df_all subj total_q mode_ wl timer ops :
  tally_ok (run df_all ops (reset_quiz_state subj total_q mode_ wl timer)).
Proof.
  apply (run_tally_shape 0); [lia | |];
    cbn [weak_clusters reset_quiz_state];
    destruct (mode_ =? "normal")%string; try constructor.
  - apply zero_tally_shape; constructor.
  - eapply Forall_impl; [| apply (zero_tally_shape (or_empty wl) []);
                            constructor].
    cbn. intros a ->. lia.
Qed.

(** X8: In every session the tally keeps one entry per cluster and no
    negative count.  In a normal session every entry counts at least
    one miss, so the list that "Retry Weak Areas" builds is the list of
    all the clusters of the tally, in the order of their first miss. *)
Theorem tally_is_well_formed (df_all : list Question) (subj : string)
    (total_q : Z) (mode_ : string) (wl : option (list Z)) (timer : bool)
    (ops : list Op) :
  let quiz := run df_all ops (reset_quiz_state subj total_q mode_ wl timer) in
  tally_ok quiz /\
  (mode_ = "normal" ->
   Forall (fun cm => 1 <= snd cm) (weak_clusters quiz) /\
   weak_list_of quiz = dict_keys (weak_clusters quiz)).
Proof.
  intros quiz. subst quiz. split.
  - apply session_tally_ok.
  - intros ->.
    assert (Forall (fun cm => 1 <= snd cm)
              (weak_clusters
                 (run df_all ops
                    (reset_quiz_state subj total_q "normal" wl timer)))) as HF.
    { apply (run_tally_shape 1); [lia | |]; constructor. }
    split; [exact HF | now apply weak_list_of_positive].
Qed.

Lemma tally_is_well_formed_witness :
  let quiz :=
    run demo_bank [OpLoad 0 0; OpSubmit "A"; OpSubmit "B"; OpSubmit "A"]
      (reset_quiz_state "Mathematics" 3 "normal" None true) in
  weak_list_of quiz = dict_keys (weak_clusters quiz).
Proof.
  intro quiz.
  apply (tally_is_well_formed demo_bank "Mathematics" 3 "normal" None true
           [OpLoad 0 0; OpSubmit "A"; OpSubmit "B"; OpSubmit "A"]).
  reflexivity.
Defined.

(** ** Retrying the weak areas *)

Lemma run_all_correct_keeps_tally df_all ops :
  forall quiz,
    all_judged true df_all ops quiz = true ->
    weak_clusters (run df_all ops quiz) = weak_clusters quiz.
Proof.
  induction ops as [| op ops IH]; intros quiz Hj; [reflexivity |].
  cbn [all_judged] in Hj. apply andb_true_iff in Hj as [Hop Hj].
  change (run df_all (op :: ops) quiz)
    with (run df_all ops (apply_op df_all quiz op)).
  rewrite (IH _ Hj).
  destruct op as [rc rs | choice_key | |]; cbn [apply_op].
  - pose proof (retarget_frame rc quiz) as (_ & _ & _ & _ & _ & _ & Hw & _).
    cbn zeta in Hw.
    destruct (load_next_question_cases df_all rc rs quiz)
      as [[_ ->] | [q [_ ->]]]; cbn [snd weak_clusters set_loaded]; auto.
  - unfold submit_answer. destruct (current_question quiz) as [q |];
      [| reflexivity].
    rewrite eqb_true_iff in Hop. rewrite Hop. reflexivity.
  - unfold next_question. cbn.
    destruct (total_questions quiz <=? question_index quiz + 1); reflexivity.
  - reflexivity.
Qed.

Lemma weak_list_of_zero quiz :
  Forall (fun cm => snd cm = 0) (weak_clusters quiz) ->
  weak_list_of quiz = [].
Proof.
  unfold weak_list_of.
  induction (weak_clusters quiz) as [| [c m] d IH]; intros HF;
    [reflexivity |].
  inversion HF as [| ? ? Hh Ht]; subst. cbn in *. subst m. cbn.
  now apply IH.
Qed.

(** X9: A weak_only round starts from a tally of zeros, so the weak areas
    of the round before are forgotten: as long as no submission of the
    round misses, whatever else is done, both "Retry Weak Areas"
    buttons find no weak area, show their notice and start nothing. *)
Theorem weak_only_round_without_miss_leaves_no_weak_area
    (df_all : list Question) (subj : string) (total_q : Z)
    (wl : option (list Z)) (timer : bool) (ops : list Op)
    (subj' : string) (total_q' : Z) (timer' : bool) (stage : string) :
  let quiz0 := reset_quiz_state subj total_q "weak_only" wl timer in
  let quiz := run df_all ops quiz0 in
  all_judged true df_all ops quiz0 = true ->
  weak_list_of quiz = [] /\
  retry_weak_areas_finished_page stage quiz =
    (stage, quiz, Some "No weak areas recorded. Try a quiz first.") /\
  retry_weak_areas_subject_page subj' total_q' timer' stage quiz =
    (stage, quiz,
     Some "No recorded weak areas yet. Try a normal quiz first.").
Proof.
  intros quiz0 quiz Hj.
  assert (weak_list_of quiz = []) as Hnone.
  { apply weak_list_of_zero. unfold quiz.
    rewrite (run_all_correct_keeps_tally _ _ _ Hj).
    cbn [weak_clusters quiz0 reset_quiz_state String.eqb Ascii.eqb Bool.eqb].
    apply (zero_tally_shape (or_empty wl) []); constructor. }
  unfold retry_weak_areas_finished_page, retry_weak_areas_subject_page.
  rewrite Hnone. auto.
Qed.

Lemma weak_only_round_without_miss_leaves_no_weak_area_witness :
  let quiz :=
    run demo_bank [OpLoad 0 0; OpSubmit "A"; OpNext; OpFinish]
      (reset_quiz_state "English" 5 "weak_only" (Some [5; 3]) true) in
  weak_list_of quiz = [] /\
  retry_weak_areas_finished_page "finished" quiz =
    ("finished", quiz, Some "No weak areas recorded. Try a quiz first.") /\
  retry_weak_areas_subject_page "English" 5 true "finished" quiz =
    ("finished", quiz,
     Some "No recorded weak areas yet. Try a normal quiz first.").
Proof.
  intro quiz.
  apply (weak_only_round_without_miss_leaves_no_weak_area demo_bank
           "English" 5 (Some [5; 3]) true
           [OpLoad 0 0; OpSubmit "A"; OpNext; OpFinish]
           "English" 5 true "finished").
  reflexivity.
Defined.

(** ** Topic names in the summary *)

Lemma str_int_inj a b : str_int a = str_int b -> a = b.
Proof.
  unfold str_int. intros H. apply to_int_inj.
  apply (f_equal NilEmpty.int_of_string) in H.
  rewrite !NilEmpty.isi in H. now injection H.
Qed.

(** A cluster is one of the nine keys of [cluster_topics], or has no
    entry. *)
Lemma cluster_topics_cases c :
  c = 0 \/ c = 1 \/ c = 2 \/ c = 3 \/ c = 4 \/ c = 5 \/ c = 6 \/ c = 7 \/
  c = 8 \/ dict_get Z.eqb cluster_topics c = None.
Proof.
  unfold cluster_topics; cbn [dict_get].
  repeat match goal with
         | |- context [Z.eqb ?k c] =>
             destruct (Z.eqb_spec k c) as [<- | _]; [tauto |]
         end.
  tauto.
Qed.

Lemma topic_name_placeholder c subj :
  dict_get Z.eqb cluster_topics c = None ->
  topic_name c subj = "Topic " ++ str_int c.
Proof. unfold topic_name, dict_get_default at 2. now intros ->. Qed.

(** Within a subject no two clusters share a topic name, placeholders
    included. *)
Lemma topic_name_inj subj c1 c2 :
  topic_name c1 subj = topic_name c2 subj -> c1 = c2.
Proof.
  intros H.
  assert (forall c s, "Topic " ++ str_int c = "Topic " ++ s -> str_int c = s)
    as Hstrip by (intros c s E; cbn in E; now injection E).
  destruct (cluster_topics_cases c1)
    as [-> | [-> | [-> | [-> | [-> | [-> | [-> | [-> | [-> | N1]]]]]]]]];
  destruct (cluster_topics_cases c2)
    as [-> | [-> | [-> | [-> | [-> | [-> | [-> | [-> | [-> | N2]]]]]]]]];
    try reflexivity;
    rewrite ?(topic_name_placeholder _ subj N1) in H;
    rewrite ?(topic_name_placeholder _ subj N2) in H;
    unfold topic_name, dict_get_default in H; cbn [dict_get cluster_topics
      Z.eqb Pos.eqb] in H;
    destruct (String.eqb "English" subj);
    destruct (String.eqb "Mathematics" subj);
    try discriminate H;
    try (apply str_int_inj; apply Hstrip; exact H);
    try (symmetry; apply str_int_inj; apply Hstrip; symmetry; exact H);
    try (cbn in H; discriminate H).
Qed.

Lemma string_dict_get_set_same (d : list (string * Z)) k v :
  dict_get String.eqb (dict_set String.eqb d k v) k = Some v.
Proof.
  induction d as [| [k' v'] d IH]; cbn.
  - now rewrite String.eqb_refl.
  - destruct (String.eqb_spec k' k) as [-> | N]; cbn.
    + now rewrite String.eqb_refl.
    + destruct (String.eqb_spec k' k); [contradiction | exact IH].
Qed.

Lemma string_dict_get_set_other (d : list (string * Z)) k v c :
  c <> k ->
  dict_get String.eqb (dict_set String.eqb d k v) c = dict_get String.eqb d c.
Proof.
  intros Hc. induction d as [| [k' v'] d IH]; cbn.
  - destruct (String.eqb_spec k c); [congruence | reflexivity].
  - destruct (String.eqb_spec k' k) as [-> | N]; cbn.
    + destruct (String.eqb_spec k c); [congruence | reflexivity].
    + destruct (String.eqb_spec k' c); [reflexivity | exact IH].
Qed.

Lemma string_dict_keys_set (d : list (string * Z)) k v c :
  In c (dict_keys (dict_set String.eqb d k v)) <-> c = k \/ In c (dict_keys d).
Proof.
  unfold dict_keys. induction d as [| [k' v'] d IH]; cbn.
  - intuition congruence.
  - destruct (String.eqb_spec k' k) as [-> | N]; cbn.
    + intuition congruence.
    + rewrite IH. intuition congruence.
Qed.

Lemma dict_get_not_in (d : list (Z * Z)) c :
  ~ In c (dict_keys d) -> dict_get Z.eqb d c = None.
Proof.
  unfold dict_keys. induction d as [| [k v] d IH]; cbn; intros H;
    [reflexivity |].
  destruct (Z.eqb_spec k c); [tauto | apply IH; tauto].
Qed.

(** The assignments of [finish_and_record], one after the other. *)
Lemma mapped_fold subj items :
  forall mapped c,
    NoDup (dict_keys items) ->
    dict_get String.eqb
      (fold_left
         (fun m (cm : Z * Z) =>
            dict_set String.eqb m (topic_name (fst cm) subj) (snd cm))
         items mapped)
      (topic_name c subj)
    = match dict_get Z.eqb items c with
      | Some v => Some v
      | None => dict_get String.eqb mapped (topic_name c subj)
      end.
Proof.
  induction items as [| [k v] items IH]; intros mapped c ND; [reflexivity |].
  cbn in ND. inversion ND as [| ? ? Hnot ND']; subst.
  cbn [fold_left fst snd dict_get]. rewrite (IH _ _ ND').
  destruct (Z.eqb_spec k c) as [-> | N].
  - rewrite (dict_get_not_in _ _ Hnot). apply string_dict_get_set_same.
  - destruct (dict_get Z.eqb items c); [reflexivity |].
    apply string_dict_get_set_other. intros E.
    apply topic_name_inj in E. congruence.
Qed.

Lemma mapped_fold_keys subj items :
  forall mapped name,
    In name
      (dict_keys
         (fold_left
            (fun m (cm : Z * Z) =>
               dict_set String.eqb m (topic_name (fst cm) subj) (snd cm))
            items mapped)) ->
    In name (dict_keys mapped) \/
    exists c, In c (dict_keys items) /\ name = topic_name c subj.
Proof.
  induction items as [| [k v] items IH]; intros mapped name H;
    [now left |].
  cbn [fold_left fst snd] in H. apply IH in H as [H | (c & Hc & E)].
  - apply string_dict_keys_set in H as [-> | H]; [| now left].
    right. exists k. split; [now left | reflexivity].
  - right. exists c. split; [now right | assumption].
Qed.

(** X10: At any point of any session, the summary that would be recorded
    gives the topic of each cluster exactly the misses of that cluster:
    no two clusters fall on one name, and every name of the summary is
    the topic of a cluster of the tally. *)
Theorem summary_keeps_every_count (df_all : list Question) (subj : string)
    (total_q : Z) (mode_ : string) (wl : option (list Z)) (timer : bool)
    (ops : list Op) :
  let quiz := run df_all ops (reset_quiz_state subj total_q mode_ wl timer) in
  (forall c,
     dict_get String.eqb (mapped_weak quiz) (topic_name c (subject quiz))
     = dict_get Z.eqb (weak_clusters quiz) c) /\
  (forall name,
     In name (dict_keys (mapped_weak quiz)) ->
     exists c,
       In c (dict_keys (weak_clusters quiz)) /\
       name = topic_name c (subject quiz)).
Proof.
  intros quiz.
  destruct (session_tally_ok df_all subj total_q mode_ wl timer ops)
    as [ND _]. fold quiz in ND.
  split.
  - intros c. unfold mapped_weak. rewrite (mapped_fold _ _ _ _ ND).
    now destruct (dict_get Z.eqb (weak_clusters quiz) c).
  - intros name H. unfold mapped_weak in H.
    apply mapped_fold_keys in H as [[] | H]. exact H.
Qed.

Lemma limit_subject subj L :
  dict_get String.eqb CLUSTER_LIMITS subj = Some L ->
  (subj = "English" /\ L = 7) \/ (subj = "Mathematics" /\ L = 8).
Proof.
  unfold CLUSTER_LIMITS; cbn [dict_get].
  destruct (String.eqb_spec "English" subj) as [<- | _];
    [intros [= <-]; now left |].
  destruct (String.eqb_spec "Mathematics" subj) as [<- | _];
    [intros [= <-]; now right |].
  discriminate.
Qed.

Lemma normal_keys_in_range df_all L ops :
  forall quiz,
    mode quiz = "normal" ->
    dict_get String.eqb CLUSTER_LIMITS (subject quiz) = Some L ->
    MIN_CLUSTER <= cluster quiz <= L ->
    (forall c, In c (dict_keys (weak_clusters quiz)) ->
               MIN_CLUSTER <= c <= L) ->
    forall c, In c (dict_keys (weak_clusters (run df_all ops quiz))) ->
              MIN_CLUSTER <= c <= L.
Proof.
  induction ops as [| op ops IH]; intros quiz Hm HL Hc Hk; [exact Hk |].
  change (run df_all (op :: ops) quiz)
    with (run df_all ops (apply_op df_all quiz op)).
  destruct (apply_op_config df_all quiz op) as (Hm' & Hs' & _).
  destruct (normal_in_range df_all [op] quiz Hm (proj1 Hc))
    as (Hlo & Hhi & _).
  { intros L' HL'. rewrite HL in HL'. injection HL' as <-. apply Hc. }
  specialize (Hhi L HL). cbn [trace map] in Hlo, Hhi.
  apply IH.
  - congruence.
  - congruence.
  - inversion Hlo as [| ? ? _ Hlo']; inversion Hhi as [| ? ? _ Hhi']; subst.
    inversion Hlo'; inversion Hhi'; subst. auto.
  - intros c Hin. apply apply_op_weak_clusters in Hin as [-> | Hin]; auto.
Qed.

(** X11: In a normal session of a subject that has a limit (English,
    Mathematics), every cluster of the tally lies between [MIN_CLUSTER]
    and the limit and has a topic of its own in [cluster_topics]: the
    weak areas of such a round never show a "Topic n" placeholder. *)
Theorem normal_session_weak_areas_are_named (df_all : list Question)
    (subj : string) (L : Z) (total_q : Z) (wl : option (list Z))
    (timer : bool) (ops : list Op) (c : Z) :
  dict_get String.eqb CLUSTER_LIMITS subj = Some L ->
  let quiz :=
    run df_all ops (reset_quiz_state subj total_q "normal" wl timer) in
  In c (dict_keys (weak_clusters quiz)) ->
  MIN_CLUSTER <= c <= L /\
  exists name,
    dict_get String.eqb (dict_get_default Z.eqb cluster_topics c []) subj
      = Some name /\
    topic_name c subj = name.
Proof.
  intros HL quiz Hin.
  assert (MIN_CLUSTER <= c <= L) as Hc.
  { apply (normal_keys_in_range df_all L ops
             (reset_quiz_state subj total_q "normal" wl timer));
      try assumption; try reflexivity.
    - change (MIN_CLUSTER <= mid subj <= L). unfold MIN_CLUSTER.
      destruct (limit_subject subj L HL) as [[-> ->] | [-> ->]];
        cbn; lia.
    - intros c' []. }
  split; [exact Hc |]. unfold MIN_CLUSTER in Hc.
  destruct (limit_subject subj L HL) as [[-> ->] | [-> ->]].
  - assert (c = 1 \/ c = 2 \/ c = 3 \/ c = 4 \/ c = 5 \/ c = 6 \/ c = 7)
      as Hcases by lia.
    decompose [or] Hcases; subst c; eexists; split; reflexivity.
  - assert (c = 1 \/ c = 2 \/ c = 3 \/ c = 4 \/ c = 5 \/ c = 6 \/ c = 7 \/
            c = 8) as Hcases by lia.
    decompose [or] Hcases; subst c; eexists; split; reflexivity.
Qed.

Lemma normal_session_weak_areas_are_named_witness :
  let quiz :=
    run demo_bank [OpLoad 0 0; OpSubmit "A"]
      (reset_quiz_state "Mathematics" 3 "normal" None true) in
  MIN_CLUSTER <= 4 <= 8 /\
  exists name,
    dict_get String.eqb (dict_get_default Z.eqb cluster_topics 4 [])
      "Mathematics" = Some name /\
    topic_name 4 "Mathematics" = name.
Proof.
  intro quiz.
  apply (normal_session_weak_areas_are_named demo_bank "Mathematics" 8 3 None
           true [OpLoad 0 0; OpSubmit "A"] 4).
  - reflexivity.
  - vm_compute. left. reflexivity.
Defined.

(** * The quiz page and the application *)

(** What a selection leaves alone among the counters, and what it
    leaves loaded. *)
Lemma load_next_question_counters df_all r_choice r_sample quiz :
  let r := load_next_question df_all r_choice r_sample quiz in
  started (snd r) = started quiz /\
  total_questions (snd r) = total_questions quiz /\
  question_index (snd r) = question_index quiz /\
  score (snd r) = score quiz /\
  weak_clusters (snd r) = weak_clusters quiz /\
  time_left (snd r) = time_left quiz /\
  enable_timer (snd r) = enable_timer quiz /\
  (fst r = true ->
   submitted (snd r) = false /\ exists q, current_question (snd r) = Some q) /\
  (fst r = false -> submitted (snd r) = submitted quiz).
Proof.
  cbn zeta. unfold load_next_question, retarget.
  destruct (weak_mode quiz);
    [destruct (negb (Zmem (cluster quiz) (weak_only_list quiz))) |];
    match goal with
    | |- context [sample ?r ?df] => destruct (sample r df) as [q |]
    end; cbn; repeat split; try discriminate; eauto.
Qed.

Lemma quiz_page_result (renders : Quiz -> bool)
    (df_all : list Question) (elapsed : Z) (r_choice r_sample : nat)
    (click : Click) (quiz : Quiz) :
  exists stage quiz',
    quiz_page renders df_all elapsed r_choice r_sample click quiz
      = Page stage quiz'.
Proof.
  unfold quiz_page.
  destruct (started quiz); cbn [negb]; [| eauto].
  assert (exists ok quiz1,
            match current_question quiz with
            | Some _ => (true, quiz)
            | None => load_next_question df_all r_choice r_sample quiz
            end = (ok, quiz1) /\
            (ok = true -> exists q, current_question quiz1 = Some q))
    as (ok & quiz1 & -> & Hq).
  { destruct (current_question quiz) as [q |] eqn:E.
    - exists true, quiz. split; [reflexivity | eauto].
    - pose proof (load_next_question_counters df_all r_choice r_sample quiz)
        as (_ & _ & _ & _ & _ & _ & _ & Hok & _). cbn zeta in Hok.
      destruct (load_next_question df_all r_choice r_sample quiz)
        as [ok quiz1].
      exists ok, quiz1. split; [reflexivity |]. intros ->.
      now destruct (Hok eq_refl). }
  destruct ok; cbn [negb]; [| eauto].
  destruct (Hq eq_refl) as [q Hcur].
  assert (current_question (timer_tick elapsed quiz1) = Some q) as Hcur2.
  { unfold timer_tick.
    destruct (enable_timer quiz1); [destruct (1 <=? elapsed) |];
      assumption. }
  destruct (enable_timer (timer_tick elapsed quiz1)
            && (time_left (timer_tick elapsed quiz1) <=? 0)); [eauto |].
  destruct (renders (timer_tick elapsed quiz1)); cbn [negb]; [| eauto].
  destruct click; eauto.
  - rewrite (submit_answer_loaded _ _ _ Hcur2). eauto.
  - destruct (submitted (timer_tick elapsed quiz1)); eauto.
Qed.

(** X12: The page never ends in an exception of [submit_answer]: whenever
    the script reaches the "Submit Answer" button a question is loaded,
    so the subscript on [None] cannot happen there. *)
Theorem quiz_page_never_raises (renders : Quiz -> bool)
    (df_all : list Question) (elapsed : Z) (r_choice r_sample : nat)
    (click : Click) (quiz : Quiz) (e : PyError) (quiz' : Quiz) :
  quiz_page renders df_all elapsed r_choice r_sample click quiz
    <> PageRaised e quiz'.
Proof.
  destruct (quiz_page_result renders df_all elapsed r_choice r_sample click
              quiz) as (stage & quiz1 & ->).
  discriminate.
Qed.

Lemma timer_tick_frame elapsed quiz :
  started (timer_tick elapsed quiz) = started quiz /\
  total_questions (timer_tick elapsed quiz) = total_questions quiz /\
  question_index (timer_tick elapsed quiz) = question_index quiz /\
  score (timer_tick elapsed quiz) = score quiz /\
  weak_clusters (timer_tick elapsed quiz) = weak_clusters quiz /\
  submitted (timer_tick elapsed quiz) = submitted quiz /\
  enable_timer (timer_tick elapsed quiz) = enable_timer quiz /\
  time_left (timer_tick elapsed quiz) <= time_left quiz.
Proof.
  unfold timer_tick.
  destruct (enable_timer quiz) eqn:E;
    [destruct (Z.leb_spec 1 elapsed) |]; cbn; rewrite ?E;
    repeat split; lia.
Qed.

Lemma submit_answer_counters choice_key quiz q :
  current_question quiz = Some q ->
  exists quiz',
    submit_answer choice_key quiz = Done quiz' /\
    started quiz' = started quiz /\
    total_questions quiz' = total_questions quiz /\
    question_index quiz' = question_index quiz /\
    time_left quiz' = time_left quiz /\
    enable_timer quiz' = enable_timer quiz /\
    submitted quiz' = true /\
    score quiz' + tally_total quiz' = score quiz + tally_total quiz + 1.
Proof.
  intros Hq. rewrite (submit_answer_loaded _ _ _ Hq). unfold tally_total.
  destruct (choice_key =? correct_key q)%string; eexists;
    (split; [reflexivity |]);
    cbn [started total_questions question_index time_left enable_timer
         submitted score weak_clusters set_correct set_wrong];
    rewrite ?dict_set_increment_total; repeat split; lia.
Qed.

Lemma finish_and_record_tally quiz :
  tally_total (finish_and_record quiz) = tally_total quiz.
Proof. reflexivity. Qed.

Lemma set_started_tally b quiz :
  tally_total (set_started b quiz) = tally_total quiz.
Proof. reflexivity. Qed.

(** Closes the goal [app_invariant ("finished", finish_and_record q)]
    from bounds on the counters of [q]. *)
Ltac finished_bounds :=
  unfold app_invariant; split; [discriminate |]; intros _;
  rewrite finish_and_record_tally;
  cbn [started total_questions question_index score finish_and_record];
  repeat split; try reflexivity; lia.

(** A run of the quiz page keeps the bounds of [app_invariant]. *)
Lemma quiz_page_invariant renders df_all elapsed r_choice r_sample click
    quiz stage' quiz' :
  app_invariant ("quiz", quiz) ->
  quiz_page renders df_all elapsed r_choice r_sample click quiz
    = Page stage' quiz' ->
  app_invariant (stage', quiz').
Proof.
  intros [Hinv _]. destruct (Hinv eq_refl) as (Hst & HT & Hi & Htl & Hans).
  clear Hinv. unfold quiz_page. rewrite Hst. cbn [negb].
  assert (exists ok quiz1,
            match current_question quiz with
            | Some _ => (true, quiz)
            | None => load_next_question df_all r_choice r_sample quiz
            end = (ok, quiz1) /\
            started quiz1 = true /\
            total_questions quiz1 = total_questions quiz /\
            question_index quiz1 = question_index quiz /\
            score quiz1 + tally_total quiz1 = score quiz + tally_total quiz /\
            time_left quiz1 = time_left quiz /\
            enable_timer quiz1 = enable_timer quiz /\
            (submitted quiz1 = true -> submitted quiz = true) /\
            (ok = true -> exists q, current_question quiz1 = Some q))
    as (ok & quiz1 & -> & Hst1 & HT1 & Hi1 & Hs1 & Htl1 & Hen1 & Hsub1 & Hq1).
  { destruct (current_question quiz) as [q |] eqn:E.
    - exists true, quiz. repeat split; eauto.
    - pose proof (load_next_question_counters df_all r_choice r_sample quiz)
        as (L1 & L2 & L3 & L4 & L5 & L6 & L7 & Lok & Lfail).
      cbn zeta in *.
      destruct (load_next_question df_all r_choice r_sample quiz)
        as [ok quiz1]. cbn [fst snd] in *.
      exists ok, quiz1. unfold tally_total. rewrite L5, L4.
      repeat split; try congruence.
      + destruct ok; [destruct (Lok eq_refl) as [E' _] | rewrite Lfail];
          congruence.
      + intros ->. now destruct (Lok eq_refl). }
  assert (question_index quiz1 <= score quiz1 + tally_total quiz1) as Hans1
    by (destruct (submitted quiz); lia).
  assert (question_index quiz1 + (if submitted quiz1 then 1 else 0)
          <= score quiz1 + tally_total quiz1) as Hans1'.
  { destruct (submitted quiz1); [| lia].
    rewrite (Hsub1 eq_refl) in Hans. lia. }
  destruct ok; cbn [negb].
  2:{ intros [= <- <-]. finished_bounds. }
  destruct (Hq1 eq_refl) as [q Hcur1]. clear Hq1.
  pose proof (timer_tick_frame elapsed quiz1)
    as (T1 & T2 & T3 & T4 & T5 & T6 & T7 & T8).
  assert (current_question (timer_tick elapsed quiz1) = Some q) as Hcur2.
  { unfold timer_tick.
    destruct (enable_timer quiz1); [destruct (1 <=? elapsed) |];
      assumption. }
  set (quiz2 := timer_tick elapsed quiz1) in *.
  assert (tally_total quiz2 = tally_total quiz1) as T5'
    by (unfold tally_total; now rewrite T5).
  destruct (enable_timer quiz2 && (time_left quiz2 <=? 0)) eqn:Eup.
  { intros [= <- <-]. finished_bounds. }
  assert (enable_timer quiz2 = true ->
          0 < time_left quiz2 <= 15 * total_questions quiz2) as Htl2.
  { intros En. rewrite En in Eup. cbn in Eup. apply Z.leb_gt in Eup.
    rewrite T7, Hen1 in En. specialize (Htl En). lia. }
  assert (app_invariant ("quiz", quiz2)) as Hinv2.
  { unfold app_invariant. split; [intros _ | discriminate].
    rewrite T6. repeat split; try lia; try congruence; apply Htl2; auto. }
  destruct (renders quiz2); cbn [negb]; [| now intros [= <- <-]].
  destruct click.
  - now intros [= <- <-].
  - destruct (submit_answer_counters (radio_key choice) quiz2 q Hcur2)
      as (quiz3 & -> & S1 & S2 & S3 & S4 & S5 & S6 & S7).
    intros [= <- <-]. unfold app_invariant. split; [intros _ | discriminate].
    rewrite S6, S5, S4, S3, S2, S1. repeat split; try lia; try congruence;
      apply Htl2; auto.
  - intros [= <- <-]. finished_bounds.
  - intros [= <- <-]. unfold app_invariant. split; discriminate.
  - destruct (submitted quiz2) eqn:Esub; [| now intros [= <- <-]].
    rewrite <- T6 in Hans1'.
    unfold next_question. cbn [total_questions question_index].
    destruct (Z.leb_spec (total_questions quiz2) (question_index quiz2 + 1));
      intros [= <- <-].
    + unfold app_invariant. split; [discriminate |]. intros _.
      rewrite finish_and_record_tally.
      change (tally_total _) with (tally_total quiz2).
      cbn [started total_questions question_index score finish_and_record].
      repeat split; try reflexivity; lia.
    + unfold app_invariant. split; [intros _ | discriminate].
      change (tally_total _) with (tally_total quiz2).
      cbn [started total_questions question_index score submitted
           enable_timer time_left].
      repeat split; try lia; try congruence; apply Htl2; auto.
Qed.

Lemma zero_tally_total l : fold_right Z.add 0 (map snd (zero_tally l)) = 0.
Proof.
  unfold zero_tally.
  assert (Forall (fun cm : Z * Z => snd cm = 0)
            (fold_left (fun d c => dict_set Z.eqb d c 0) l [])) as HF
    by (apply (zero_tally_shape l []); constructor).
  induction HF as [| [c m] d Hm _ IH]; cbn in *; lia.
Qed.

(** A fresh session within the range of the slider satisfies the
    bounds of the quiz stage. *)
Lemma reset_quiz_state_invariant subj total_q mode_ wl timer :
  3 <= total_q <= 20 ->
  app_invariant ("quiz", reset_quiz_state subj total_q mode_ wl timer).
Proof.
  intros HT. unfold app_invariant, tally_total.
  split; [intros _ | discriminate].
  cbn [started total_questions question_index score submitted enable_timer
       time_left weak_clusters reset_quiz_state].
  assert (fold_right Z.add 0
            (map snd (if (mode_ =? "normal")%string then []
                      else zero_tally (or_empty wl))) = 0) as ->
    by (destruct (mode_ =? "normal")%string;
        [reflexivity | apply zero_tally_total]).
  repeat split; try lia; destruct timer; try discriminate; lia.
Qed.

Lemma app_step_invariant renders df_all st ev :
  slider_ok ev -> app_invariant st -> app_invariant (app_step renders df_all st ev).
Proof.
  destruct st as [stage quiz]. intros Hev Hinv. unfold app_step.
  destruct (String.eqb_spec stage "subject") as [-> | N1].
  { destruct ev as [subj total_q timer | subj total_q timer | | |];
      try assumption.
    - now apply reset_quiz_state_invariant.
    - unfold retry_weak_areas_subject_page.
      destruct (weak_list_of quiz); [assumption |].
      now apply reset_quiz_state_invariant. }
  destruct (String.eqb_spec stage "quiz") as [-> | N2].
  { destruct ev as [| | elapsed rc rs click | |]; try assumption.
    destruct (quiz_page_result renders df_all elapsed rc rs click quiz)
      as (stage' & quiz' & E). rewrite E.
    eapply quiz_page_invariant; eassumption. }
  destruct (String.eqb_spec stage "finished") as [-> | N3];
    [| assumption].
  destruct ev; try assumption.
  - unfold retry_weak_areas_finished_page.
    destruct (weak_list_of quiz); [assumption |].
    apply reset_quiz_state_invariant.
    destruct Hinv as [_ Hfin]. destruct (Hfin eq_refl) as (_ & HT & _).
    exact HT.
  - unfold app_invariant. split; discriminate.
Qed.

Lemma app_run_invariant renders df_all events :
  Forall slider_ok events ->
  forall st, app_invariant st ->
             app_invariant (app_run renders df_all events st).
Proof.
  induction 1 as [| ev events Hev _ IH]; intros st Hinv; [assumption |].
  apply IH. now apply app_step_invariant.
Qed.

Lemma subject_page_invariant quiz : app_invariant ("subject", quiz).
Proof. unfold app_invariant. split; discriminate. Qed.

(** X13: From the subject page on, whatever is pressed and whatever the
    clock and the draws: while a round is on, the quiz is started and
    the question index is below the number of questions; once it is
    finished, the quiz is stopped and the index is at most that number.
    The number of questions is the one chosen on the slider. *)
Theorem question_index_stays_in_bounds (renders : Quiz -> bool)
    (df_all : list Question) (events : list Event) (quiz0 : Quiz) :
  Forall slider_ok events ->
  let st := app_run renders df_all events ("subject", quiz0) in
  (fst st = "quiz" ->
   started (snd st) = true /\
   0 <= question_index (snd st) < total_questions (snd st) /\
   3 <= total_questions (snd st) <= 20) /\
  (fst st = "finished" ->
   started (snd st) = false /\
   0 <= question_index (snd st) <= total_questions (snd st) /\
   3 <= total_questions (snd st) <= 20).
Proof.
  intros Hev st.
  pose proof (app_run_invariant renders df_all events Hev _
                (subject_page_invariant quiz0)) as Hinv.
  fold st in Hinv. destruct st as [stage quiz]. cbn [fst snd].
  destruct Hinv as [Hq Hf]. split; intros E.
  - destruct (Hq E) as (? & ? & ? & _). auto.
  - destruct (Hf E) as (? & ? & ? & _). auto.
Qed.

(** X14: The progress never runs ahead of the answers: during a round and
    after it, the question index is at most the number of points plus
    the number of misses, since "Next Question" is only offered after a
    submission. *)
Theorem question_index_counts_answered (renders : Quiz -> bool)
    (df_all : list Question) (events : list Event) (quiz0 : Quiz) :
  Forall slider_ok events ->
  let st := app_run renders df_all events ("subject", quiz0) in
  fst st = "quiz" \/ fst st = "finished" ->
  question_index (snd st) <= score (snd st) + tally_total (snd st).
Proof.
  intros Hev st.
  pose proof (app_run_invariant renders df_all events Hev _
                (subject_page_invariant quiz0)) as Hinv.
  fold st in Hinv. destruct st as [stage quiz]. cbn [fst snd].
  destruct Hinv as [Hq Hf]. intros [E | E].
  - destruct (Hq E) as (_ & _ & _ & _ & H).
    destruct (submitted quiz); lia.
  - destruct (Hf E) as (_ & _ & _ & H). exact H.
Qed.

(** X15: While a round with the timer is on, the time left is positive and
    at most 15 seconds per question: the page finishes the round in the
    very run in which the countdown reaches zero. *)
Theorem time_left_positive_while_running (renders : Quiz -> bool)
    (df_all : list Question) (events : list Event) (quiz0 : Quiz) :
  Forall slider_ok events ->
  let st := app_run renders df_all events ("subject", quiz0) in
  fst st = "quiz" ->
  enable_timer (snd st) = true ->
  0 < time_left (snd st) <= 15 * total_questions (snd st).
Proof.
  intros Hev st.
  pose proof (app_run_invariant renders df_all events Hev _
                (subject_page_invariant quiz0)) as Hinv.
  fold st in Hinv. destruct st as [stage quiz]. cbn [fst snd].
  destruct Hinv as [Hq _]. intros E En.
  destruct (Hq E) as (_ & _ & _ & H & _). now apply H.
Qed.

Lemma demo_round_slider_ok : Forall slider_ok demo_round.
Proof.
  unfold demo_round.
  repeat (apply Forall_cons; [cbn; lia |]). apply Forall_nil.
Defined.

Lemma question_index_stays_in_bounds_witness :
  let st := app_run always_renders demo_bank demo_round
              ("subject", demo_exhausted) in
  (fst st = "quiz" ->
   started (snd st) = true /\
   0 <= question_index (snd st) < total_questions (snd st) /\
   3 <= total_questions (snd st) <= 20) /\
  (fst st = "finished" ->
   started (snd st) = false /\
   0 <= question_index (snd st) <= total_questions (snd st) /\
   3 <= total_questions (snd st) <= 20).
Proof.
  exact (question_index_stays_in_bounds always_renders demo_bank demo_round
           demo_exhausted demo_round_slider_ok).
Defined.

Lemma question_index_counts_answered_witness :
  let st := app_run always_renders demo_bank demo_round
              ("subject", demo_exhausted) in
  question_index (snd st) <= score (snd st) + tally_total (snd st).
Proof.
  intro st.
  apply (question_index_counts_answered always_renders demo_bank demo_round
           demo_exhausted demo_round_slider_ok).
  left. reflexivity.
Defined.

Lemma time_left_positive_while_running_witness :
  let st := app_run always_renders demo_bank demo_round
              ("subject", demo_exhausted) in
  0 < time_left (snd st) <= 15 * total_questions (snd st).
Proof.
  intro st.
  apply (time_left_positive_while_running always_renders demo_bank demo_round
           demo_exhausted demo_round_slider_ok); reflexivity.
Defined.

(** ** The cluster of a weak_only round *)

Lemma apply_op_not_normal_cluster df_all quiz op :
  mode quiz = "weak_only" ->
  (weak_only_list quiz <> [] -> In (cluster quiz) (weak_only_list quiz)) ->
  cluster (apply_op df_all quiz op) = cluster quiz.
Proof.
  intros Hm Hin.
  destruct op as [rc rs | choice_key | |]; cbn [apply_op].
  - assert (cluster (snd (retarget rc quiz)) = cluster quiz) as Hc.
    { rewrite retarget_cluster.
      destruct (weak_mode quiz) eqn:W; [| reflexivity].
      apply weak_mode_true in W as [_ Hne].
      apply Hin, Zmem_In in Hne. now rewrite Hne. }
    destruct (load_next_question_cases df_all rc rs quiz)
      as [[_ ->] | [q [_ ->]]]; cbn [snd cluster set_loaded]; exact Hc.
  - unfold submit_answer. destruct (current_question quiz) as [q |];
      [| reflexivity].
    destruct (choice_key =? correct_key q)%string; cbn; now rewrite Hm.
  - unfold next_question. cbn.
    destruct (total_questions quiz <=? question_index quiz + 1); reflexivity.
  - reflexivity.
Qed.

(** X16: A weak_only round never leaves its start cluster: the first
    candidate (or half the limit when there is no candidate) is the
    cluster of every state of the session, and in every state the
    re-draw among the candidates is not taken, whatever the draw.
    Another candidate cluster is reached only by widening, without the
    session's cluster following. *)
Theorem weak_only_cluster_is_constant (df_all : list Question)
    (subj : string) (total_q : Z) (wl : option (list Z)) (timer : bool)
    (ops : list Op) :
  let quiz0 := reset_quiz_state subj total_q "weak_only" wl timer in
  Forall (fun quiz =>
            cluster quiz = cluster quiz0 /\
            forall r_choice, retarget r_choice quiz = (cluster quiz, quiz))
         (trace df_all ops quiz0) /\
  cluster quiz0 = match or_empty wl with c :: _ => c | [] => mid subj end.
Proof.
  intros quiz0. split; [| reflexivity].
  assert (forall quiz,
            (weak_only_list quiz <> [] ->
             In (cluster quiz) (weak_only_list quiz)) ->
            forall r_choice, retarget r_choice quiz = (cluster quiz, quiz))
    as Hkeep.
  { intros quiz Hin r. unfold retarget.
    destruct (weak_mode quiz) eqn:W; [| reflexivity].
    apply weak_mode_true in W as [_ Hne].
    apply Hin, Zmem_In in Hne. now rewrite Hne. }
  assert (forall quiz,
            mode quiz = "weak_only" ->
            (weak_only_list quiz <> [] ->
             In (cluster quiz) (weak_only_list quiz)) ->
            Forall (fun quiz' =>
                      cluster quiz' = cluster quiz /\
                      forall r_choice,
                        retarget r_choice quiz' = (cluster quiz', quiz'))
              (trace df_all ops quiz)) as Hgen.
  { induction ops as [| op ops IH]; intros quiz Hm Hin; cbn [trace].
    - repeat constructor. now apply Hkeep.
    - constructor; [split; [reflexivity | now apply Hkeep] |].
      destruct (apply_op_config df_all quiz op) as (Hm' & _ & Hl').
      pose proof (apply_op_not_normal_cluster df_all quiz op Hm Hin) as Hc.
      rewrite <- Hc. apply IH; [congruence |].
      rewrite Hl', Hc. exact Hin. }
  apply Hgen; [reflexivity |].
  cbn [weak_only_list cluster quiz0 reset_quiz_state String.eqb Ascii.eqb
       Bool.eqb].
  destruct (or_empty wl) as [| c l]; [congruence | intros _; now left].
Qed.

(** ** Questions shown and question index *)

Lemma load_next_question_used_length df_all r_choice r_sample quiz :
  let r := load_next_question df_all r_choice r_sample quiz in
  if fst r
  then List.length (used_indices (snd r))
       = S (List.length (used_indices quiz))
  else used_indices (snd r) = used_indices quiz /\
       current_question (snd r) = current_question quiz.
Proof.
  cbn zeta.
  destruct (load_next_question_fresh df_all r_choice r_sample quiz)
    as [(-> & Hu & Hc) | (q & -> & _ & _ & _ & ->)]; [auto |].
  rewrite length_app. cbn. lia.
Qed.

Lemma timer_tick_shown elapsed quiz :
  used_indices (timer_tick elapsed quiz) = used_indices quiz /\
  current_question (timer_tick elapsed quiz) = current_question quiz.
Proof.
  unfold timer_tick.
  destruct (enable_timer quiz); [destruct (1 <=? elapsed) |]; auto.
Qed.

Lemma submit_answer_shown choice_key quiz quiz' :
  submit_answer choice_key quiz = Done quiz' ->
  used_indices quiz' = used_indices quiz /\
  current_question quiz' = current_question quiz.
Proof.
  unfold submit_answer. destruct (current_question quiz) as [q |] eqn:E;
    [| discriminate].
  destruct (choice_key =? correct_key q)%string; intros [= <-]; cbn; auto.
Qed.

Lemma reset_quiz_state_shown subj total_q mode_ wl timer :
  3 <= total_q <= 20 ->
  shown_invariant ("quiz", reset_quiz_state subj total_q mode_ wl timer).
Proof. intros HT _. cbn. lia. Qed.

Lemma quiz_page_shown renders df_all elapsed r_choice r_sample click
    quiz stage' quiz' :
  app_invariant ("quiz", quiz) ->
  shown_invariant ("quiz", quiz) ->
  quiz_page renders df_all elapsed r_choice r_sample click quiz
    = Page stage' quiz' ->
  shown_invariant (stage', quiz').
Proof.
  intros [Hinv _] Hshown.
  destruct (Hinv eq_refl) as (Hst & HT & Hi & _). clear Hinv.
  destruct (Hshown (or_introl eq_refl)) as [Hlen Hle]. clear Hshown.
  unfold quiz_page. rewrite Hst. cbn [negb].
  assert (exists ok quiz1,
            match current_question quiz with
            | Some _ => (true, quiz)
            | None => load_next_question df_all r_choice r_sample quiz
            end = (ok, quiz1) /\
            total_questions quiz1 = total_questions quiz /\
            question_index quiz1 = question_index quiz /\
            Z.of_nat (List.length (used_indices quiz1))
              = question_index quiz1
                + (match current_question quiz1 with
                   | Some _ => 1 | None => 0 end) /\
            Z.of_nat (List.length (used_indices quiz1))
              <= total_questions quiz1 /\
            (ok = true -> exists q, current_question quiz1 = Some q))
    as (ok & quiz1 & -> & HT1 & Hi1 & Hlen1 & Hle1 & Hq1).
  { destruct (current_question quiz) as [q |] eqn:E.
    - exists true, quiz. rewrite E. repeat split; eauto.
    - pose proof (load_next_question_counters df_all r_choice r_sample quiz)
        as (_ & L2 & L3 & _ & _ & _ & _ & Lok & _).
      pose proof (load_next_question_used_length df_all r_choice r_sample
                    quiz) as Hu.
      cbn zeta in *.
      destruct (load_next_question df_all r_choice r_sample quiz)
        as [ok quiz1]. cbn [fst snd] in *.
      exists ok, quiz1. split; [reflexivity |].
      split; [assumption |]. split; [assumption |].
      destruct ok.
      + destruct (Lok eq_refl) as [_ [q Hq]]. rewrite Hq, Hu, L2, L3.
        repeat split; eauto; lia.
      + destruct Hu as [-> ->]. rewrite E, L2, L3.
        repeat split; try lia; try discriminate. }
  destruct ok; cbn [negb].
  2:{ intros [= <- <-] _. cbn [used_indices current_question
        question_index total_questions finish_and_record]. auto. }
  destruct (Hq1 eq_refl) as [q Hcur1]. clear Hq1.
  pose proof (timer_tick_frame elapsed quiz1)
    as (_ & T2 & T3 & _ & _ & T6 & _).
  pose proof (timer_tick_shown elapsed quiz1) as [U1 U2].
  set (quiz2 := timer_tick elapsed quiz1) in *.
  assert (Z.of_nat (List.length (used_indices quiz2))
          = question_index quiz2
            + (match current_question quiz2 with
               | Some _ => 1 | None => 0 end) /\
          Z.of_nat (List.length (used_indices quiz2))
            <= total_questions quiz2) as Hshown2
    by (rewrite U1, U2, T2, T3; auto).
  assert (current_question quiz2 = Some q) as Hcur2 by congruence.
  destruct (enable_timer quiz2 && (time_left quiz2 <=? 0)).
  { intros [= <- <-] _. exact Hshown2. }
  destruct (renders quiz2); cbn [negb];
    [| intros [= <- <-] _; exact Hshown2].
  destruct click.
  - intros [= <- <-] _. exact Hshown2.
  - destruct (submit_answer_counters (radio_key choice) quiz2 q Hcur2)
      as (quiz3 & E3 & _ & S2 & S3 & _).
    rewrite E3. intros [= <- <-] _.
    destruct (submit_answer_shown _ _ _ E3) as [-> ->].
    rewrite S2, S3. exact Hshown2.
  - intros [= <- <-] _. exact Hshown2.
  - intros [= <- <-] [E | E]; discriminate.
  - destruct (submitted quiz2); [| intros [= <- <-] _; exact Hshown2].
    rewrite Hcur2 in Hshown2. unfold next_question.
    cbn [total_questions question_index].
    destruct (total_questions quiz2 <=? question_index quiz2 + 1);
      intros [= <- <-] _;
      cbn [used_indices current_question question_index total_questions
           finish_and_record]; lia.
Qed.

Lemma app_step_shown renders df_all st ev :
  slider_ok ev ->
  app_invariant st -> shown_invariant st ->
  shown_invariant (app_step renders df_all st ev).
Proof.
  destruct st as [stage quiz]. intros Hev Hinv Hshown. unfold app_step.
  destruct (String.eqb_spec stage "subject") as [-> | N1].
  { destruct ev as [subj total_q timer | subj total_q timer | | |];
      try assumption.
    - now apply reset_quiz_state_shown.
    - unfold retry_weak_areas_subject_page.
      destruct (weak_list_of quiz); [assumption |].
      now apply reset_quiz_state_shown. }
  destruct (String.eqb_spec stage "quiz") as [-> | N2].
  { destruct ev as [| | elapsed rc rs click | |]; try assumption.
    destruct (quiz_page_result renders df_all elapsed rc rs click quiz)
      as (stage' & quiz' & E). rewrite E.
    eapply quiz_page_shown; eassumption. }
  destruct (String.eqb_spec stage "finished") as [-> | N3];
    [| assumption].
  destruct ev; try assumption.
  - unfold retry_weak_areas_finished_page.
    destruct (weak_list_of quiz); [assumption |].
    apply reset_quiz_state_shown.
    destruct Hinv as [_ Hfin]. destruct (Hfin eq_refl) as (_ & HT & _).
    exact HT.
  - intros [E | E]; discriminate.
Qed.

Lemma app_run_shown renders df_all events :
  Forall slider_ok events ->
  forall st, app_invariant st -> shown_invariant st ->
             shown_invariant (app_run renders df_all events st).
Proof.
  induction 1 as [| ev events Hev _ IH]; intros st Hinv Hshown;
    [assumption |].
  apply IH; [now apply app_step_invariant | now apply app_step_shown].
Qed.

(** X17: During a round and after it, the questions loaded so far are as
    many as the question index, plus one while a question is on
    display; a round never loads more questions than the number chosen
    on the slider. *)
Theorem questions_shown_match_the_index (renders : Quiz -> bool)
    (df_all : list Question) (events : list Event) (quiz0 : Quiz) :
  Forall slider_ok events ->
  let st := app_run renders df_all events ("subject", quiz0) in
  fst st = "quiz" \/ fst st = "finished" ->
  Z.of_nat (List.length (used_indices (snd st)))
    = question_index (snd st)
      + (match current_question (snd st) with Some _ => 1 | None => 0 end) /\
  Z.of_nat (List.length (used_indices (snd st))) <= total_questions (snd st).
Proof.
  intros Hev st.
  assert (shown_invariant ("subject", quiz0)) as H0
    by (intros [E | E]; discriminate).
  pose proof (app_run_shown renders df_all events Hev _
                (subject_page_invariant quiz0) H0) as Hshown.
  fold st in Hshown. destruct st as [stage quiz]. exact Hshown.
Qed.

Lemma questions_shown_match_the_index_witness :
  let st := app_run always_renders demo_bank demo_round
              ("subject", demo_exhausted) in
  Z.of_nat (List.length (used_indices (snd st)))
    = question_index (snd st)
      + (match current_question (snd st) with Some _ => 1 | None => 0 end) /\
  Z.of_nat (List.length (used_indices (snd st))) <= total_questions (snd st).
Proof.
  intro st.
  apply (questions_shown_match_the_index always_renders demo_bank demo_round
           demo_exhausted demo_round_slider_ok).
  left. reflexivity.
Defined.

(** ** The mode of a round *)

(** A run of the quiz page leaves the mode and the candidate list as
    they are. *)
Lemma quiz_page_config renders df_all elapsed r_choice r_sample click
    quiz stage' quiz' :
  quiz_page renders df_all elapsed r_choice r_sample click quiz
    = Page stage' quiz' ->
  mode quiz' = mode quiz /\ weak_only_list quiz' = weak_only_list quiz.
Proof.
  unfold quiz_page.
  destruct (started quiz); cbn [negb]; [| intros [= <- <-]; auto].
  assert (exists ok quiz1,
            match current_question quiz with
            | Some _ => (true, quiz)
            | None => load_next_question df_all r_choice r_sample quiz
            end = (ok, quiz1) /\
            mode quiz1 = mode quiz /\
            weak_only_list quiz1 = weak_only_list quiz)
    as (ok & quiz1 & -> & Hm1 & Hl1).
  { destruct (current_question quiz) as [q |].
    - exists true, quiz. auto.
    - destruct (apply_op_config df_all quiz (OpLoad r_choice r_sample))
        as (Hm & _ & Hl). cbn [apply_op] in Hm, Hl.
      destruct (load_next_question df_all r_choice r_sample quiz)
        as [ok quiz1]. exists ok, quiz1. auto. }
  destruct ok; cbn [negb]; [| intros [= <- <-]; auto].
  assert (mode (timer_tick elapsed quiz1) = mode quiz /\
          weak_only_list (timer_tick elapsed quiz1) = weak_only_list quiz)
    as [Hm2 Hl2].
  { unfold timer_tick.
    destruct (enable_timer quiz1); [destruct (1 <=? elapsed) |]; auto. }
  set (quiz2 := timer_tick elapsed quiz1) in *.
  destruct (enable_timer quiz2 && (time_left quiz2 <=? 0));
    [intros [= <- <-]; auto |].
  destruct (renders quiz2); cbn [negb]; [| intros [= <- <-]; auto].
  destruct click.
  - intros [= <- <-]. auto.
  - destruct (apply_op_config df_all quiz2 (OpSubmit (radio_key choice)))
      as (Hm & _ & Hl). cbn [apply_op] in Hm, Hl.
    destruct (submit_answer (radio_key choice) quiz2); [| discriminate].
    intros [= <- <-]. split; congruence.
  - intros [= <- <-]. auto.
  - intros [= <- <-]. auto.
  - destruct (submitted quiz2); [| intros [= <- <-]; auto].
    destruct (apply_op_config df_all quiz2 OpNext) as (Hm & _ & Hl).
    cbn [apply_op] in Hm, Hl.
    intros [= <- <-]. split; congruence.
Qed.

(** X18: A round that is on is either a normal round or a weak_only
    round with at least one candidate cluster: no sequence of buttons,
    from the subject page on, puts the quiz page in front of a
    weak_only session without candidates. *)
Theorem round_mode_is_well_formed (renders : Quiz -> bool)
    (df_all : list Question) (events : list Event) (quiz0 : Quiz) :
  let st := app_run renders df_all events ("subject", quiz0) in
  fst st = "quiz" ->
  mode (snd st) = "normal" \/
  (mode (snd st) = "weak_only" /\ weak_only_list (snd st) <> []).
Proof.
  intros st.
  assert (forall st0 : string * Quiz,
            (fst st0 = "quiz" ->
             mode (snd st0) = "normal" \/
             (mode (snd st0) = "weak_only" /\ weak_only_list (snd st0) <> [])) ->
            fst (app_run renders df_all events st0) = "quiz" ->
            mode (snd (app_run renders df_all events st0)) = "normal" \/
            (mode (snd (app_run renders df_all events st0)) = "weak_only" /\
             weak_only_list (snd (app_run renders df_all events st0)) <> []))
    as Hgen.
  { induction events as [| ev events IH]; intros st0 H0; [exact H0 |].
    change (app_run renders df_all (ev :: events) st0)
      with (app_run renders df_all events (app_step renders df_all st0 ev)).
    apply IH. clear IH. destruct st0 as [stage quiz]. cbn [fst snd] in H0.
    unfold app_step.
    destruct (String.eqb_spec stage "subject") as [-> | N1].
    { destruct ev as [subj total_q timer | subj total_q timer | | |];
        try (intros E; discriminate E).
      - intros _. now left.
      - unfold retry_weak_areas_subject_page.
        destruct (weak_list_of quiz) as [| c l];
          [intros E; discriminate E |].
        intros _. right. split; [reflexivity | discriminate]. }
    destruct (String.eqb_spec stage "quiz") as [-> | N2].
    { destruct ev as [| | elapsed rc rs click | |]; try exact H0.
      destruct (quiz_page_result renders df_all elapsed rc rs click quiz)
        as (stage' & quiz' & E). rewrite E. cbn [fst snd]. intros _.
      destruct (quiz_page_config _ _ _ _ _ _ _ _ _ E) as [-> ->].
      now apply H0. }
    destruct (String.eqb_spec stage "finished") as [-> | N3];
      [| exact H0].
    destruct ev; try (intros E; discriminate E).
    unfold retry_weak_areas_finished_page.
    destruct (weak_list_of quiz) as [| c l]; [intros E; discriminate E |].
    intros _. right. split; [reflexivity | discriminate]. }
  apply Hgen. intros E. discriminate E.
Qed.

(** A miss in a normal round, then "Quit Quiz" and "Retry Weak Areas":
    the round that is on is a weak_only round with a candidate. *)
Lemma round_mode_is_well_formed_witness :
  let st :=
    app_run always_renders demo_bank
      [ EvStart "English" 3 true;
        EvQuiz 0 0 0 NoClick;
        EvQuiz 1 0 0 (ClickSubmit KeyA);
        EvQuiz 0 0 0 ClickQuit;
        EvRetryFinished ]
      ("subject", demo_exhausted) in
  mode (snd st) = "normal" \/
  (mode (snd st) = "weak_only" /\ weak_only_list (snd st) <> []).
Proof.
  intro st.
  apply (round_mode_is_well_formed always_renders demo_bank
           [ EvStart "English" 3 true;
             EvQuiz 0 0 0 NoClick;
             EvQuiz 1 0 0 (ClickSubmit KeyA);
             EvQuiz 0 0 0 ClickQuit;
             EvRetryFinished ]
           demo_exhausted).
  reflexivity.
Defined.
